(** * WorkReflect backend: the live-room coordinator ([src/routes/roomRoutes.js])

    A shallow embedding of the ZEGOCLOUD Token04 issuer ([generateToken04]
    and its helpers) and of the in-memory room registry with its four
    Express handlers, followed by the properties of the natural-language
    specification that concern them.

    Conventions of the embedding.
    - A JavaScript string is the sequence of its UTF-16 code units; the
      strings of the model are those whose code units fit eight bits
      (U+0000 to U+00FF), one [ascii] per code unit.  A code unit above
      U+007F still takes two bytes in UTF-8, so the length of a string in
      characters and its length in bytes differ as they do in the source.
    - A JavaScript Number is either NaN or an integer, held exactly in [Z]
      (the integer arithmetic of the source is exact on safe integers).
    - [Math.random()] is a binary64 number of the interval from 0
      (included) to 1 (excluded); its product with an integer is rounded
      to 53 significant bits, ties to even, as IEEE 754 has it.
    - [Date.now()] and [Math.random()] read two oracles of the [world];
      every read advances the oracle.
    - A bytes [Buffer] is a [list byte]. *)

From Stdlib Require Import ZArith NArith QArith Qround String Ascii List Lia Bool.
From Stdlib Require Import DecimalString.
From Stdlib Require Import Strings.Byte.
From stdpp Require Import base option list strings.
Import ListNotations.

Open Scope string_scope.

(** ** JavaScript values, exceptions and the ambient world *)

Module JS.

Inductive number :=
| NaN
| Int (z : Z).

Inductive value :=
| VUndefined
| VNull
| VBool (b : bool)
| VNum (n : number)
| VStr (s : string).

(** [ToBoolean]. *)
Definition truthy (v : value) : bool :=
  match v with
  | VUndefined | VNull => false
  | VBool b => b
  | VNum NaN => false
  | VNum (Int z) => negb (z =? 0)%Z
  | VStr EmptyString => false
  | VStr (String _ _) => true
  end.

Definition typeof (v : value) : string :=
  match v with
  | VUndefined => "undefined"
  | VNull => "object"
  | VBool _ => "boolean"
  | VNum _ => "number"
  | VStr _ => "string"
  end.

(** [v.length] of a primitive that is neither [null] nor [undefined]:
    only strings have one. *)
Definition length_of (v : value) : value :=
  match v with
  | VStr s => VNum (Int (Z.of_nat (String.length s)))
  | _ => VUndefined
  end.

(** [a === b] against a number literal. *)
Definition strict_eq_num (v : value) (z : Z) : bool :=
  match v with
  | VNum (Int z') => (z' =? z)%Z
  | _ => false
  end.

(** [a === b] against a string. *)
Definition strict_eq_str (v : value) (s : string) : bool :=
  match v with
  | VStr s' => String.eqb s' s
  | _ => false
  end.

Inductive exn :=
| Error (message : string)
| TypeError (message : string)
| RangeError (message : string).

Inductive result (A : Type) :=
| Ok (a : A)
| Throw (e : exn).
Arguments Ok {A} a.
Arguments Throw {A} e.

(** One outcome of [Math.random()]: the binary64 number
    [mant / 2 ^ scale], at least 0 and below 1.  Every such number has
    this form, with a significand of at most 53 bits and a scale of at
    most 1074. *)
Record draw := Draw {
  mant : Z;
  scale : Z;
  draw_range :
    ((0 <=? mant) && (mant <? 2 ^ 53) && (mant <? 2 ^ scale) && (scale <=? 1074))%Z = true
}.

(** The integer nearest to the non-negative integer [n] among those of at
    most 53 significant bits, ties to even. *)
Definition round53 (n : Z) : Z :=
  let s := (Z.log2 n - 52)%Z in
  if (s <=? 0)%Z then n
  else
    let q := (n / 2 ^ s)%Z in
    let r := (n mod 2 ^ s)%Z in
    let h := (2 ^ (s - 1))%Z in
    ((if (h <? r) || ((r =? h) && Z.odd q) then q + 1 else q) * 2 ^ s)%Z.

(** [c * Math.random()] for an integer [c] from 0 to 2^53: the exact
    product is [c * mant / 2 ^ scale], a multiple of 2^-1074 well below
    2^1024, so that rounding it is rounding its numerator. *)
Definition times (c : Z) (d : draw) : Q :=
  round53 (c * mant d) # Z.to_pos (2 ^ scale d).

Record world := World {
  time_src : nat -> Z;      (* the successive results of Date.now(), in ms *)
  time_reads : nat;
  rand_src : nat -> draw;   (* the successive results of Math.random() *)
  rand_reads : nat
}.

(** Computations that read the world and may throw. *)
Definition M (A : Type) : Type := world -> result A * world.

Definition ret {A} (a : A) : M A := fun w => (Ok a, w).

Definition throw {A} (e : exn) : M A := fun w => (Throw e, w).

Definition bind {A B} (c : M A) (k : A -> M B) : M B :=
  fun w =>
    match c w with
    | (Ok a, w') => k a w'
    | (Throw e, w') => (Throw e, w')
    end.

Definition lift {A} (r : result A) : M A := fun w => (r, w).

Declare Scope js_scope.
Delimit Scope js_scope with js.
Notation "'let*' x ':=' c 'in' k" := (bind c (fun x => k))
  (at level 10, x name, c at level 100, k at level 200) : js_scope.

Definition Date_now : M Z :=
  fun w =>
    (Ok (time_src w (time_reads w)),
     World (time_src w) (S (time_reads w)) (rand_src w) (rand_reads w)).

Definition Math_random : M draw :=
  fun w =>
    (Ok (rand_src w (rand_reads w)),
     World (time_src w) (time_reads w) (rand_src w) (S (rand_reads w))).

(** [Number.prototype.toString()] of an integer below 1e21 in magnitude. *)
Definition Z_to_string (z : Z) : string := NilZero.string_of_int (Z.to_int z).

(** [Buffer.from(s, "utf8")] on 8-bit code units. *)
Definition byte_of_N (n : N) : byte :=
  match Byte.of_N (n mod 256) with
  | Some b => b
  | None => x00
  end.

Definition utf8_unit (c : ascii) : list byte :=
  let n := N_of_ascii c in
  if (n <? 128)%N then [byte_of_N n]
  else [byte_of_N (192 + n / 64); byte_of_N (128 + n mod 64)].

Definition utf8 (s : string) : list byte :=
  flat_map utf8_unit (list_ascii_of_string s).

(** [Buffer.from(v)] for a primitive [v]: anything but a string is refused. *)
Definition Buffer_from (v : value) : result (list byte) :=
  match v with
  | VStr s => Ok (utf8 s)
  | _ => Throw (TypeError "ERR_INVALID_ARG_TYPE")
  end.

(** *** [JSON.stringify] on objects of primitives *)

Definition dquote : ascii := "034"%char.
Definition backslash : ascii := "092"%char.

Definition hex_digit (n : N) : ascii :=
  if (n <? 10)%N then ascii_of_N (48 + n) else ascii_of_N (87 + n).

(** [QuoteJSONString], one code unit. *)
Definition quote_unit (c : ascii) : string :=
  let n := N_of_ascii c in
  if (n =? 8)%N then String backslash "b"
  else if (n =? 9)%N then String backslash "t"
  else if (n =? 10)%N then String backslash "n"
  else if (n =? 12)%N then String backslash "f"
  else if (n =? 13)%N then String backslash "r"
  else if (n =? 34)%N then String backslash (String dquote EmptyString)
  else if (n =? 92)%N then String backslash (String backslash EmptyString)
  else if (n <? 32)%N then
    String backslash
      (String "u" (String "0" (String "0"
         (String (hex_digit (n / 16)) (String (hex_digit (n mod 16)) EmptyString)))))
  else String c EmptyString.

Fixpoint quote_body (s : string) : string :=
  match s with
  | EmptyString => EmptyString
  | String c t => quote_unit c ++ quote_body t
  end.

Definition quote (s : string) : string :=
  String dquote (quote_body s ++ String dquote EmptyString).

(** [SerializeJSONProperty] of a primitive; [None] is [undefined]. *)
Definition stringify_value (v : value) : option string :=
  match v with
  | VUndefined => None
  | VNull => Some "null"
  | VBool true => Some "true"
  | VBool false => Some "false"
  | VNum NaN => Some "null"
  | VNum (Int z) => Some (Z_to_string z)
  | VStr s => Some (quote s)
  end.

(** The members of an object, in property order; a property whose value
    is [undefined] is left out. *)
Fixpoint stringify_members (o : list (string * value)) : list string :=
  match o with
  | [] => []
  | (k, v) :: t =>
      match stringify_value v with
      | Some sv => (quote k ++ ":" ++ sv) :: stringify_members t
      | None => stringify_members t
      end
  end.

Fixpoint join (sep : string) (l : list string) : string :=
  match l with
  | [] => EmptyString
  | [x] => x
  | x :: t => x ++ sep ++ join sep t
  end.

Definition JSON_stringify (o : list (string * value)) : string :=
  "{" ++ join "," (stringify_members o) ++ "}".

(** [parseInt(s, 10)]: leading white space, an optional sign, then the
    longest run of decimal digits; NaN when there is none. *)
Definition is_white (c : ascii) : bool :=
  let n := N_of_ascii c in
  ((9 <=? n)%N && (n <=? 13)%N) || (n =? 32)%N || (n =? 160)%N.

Fixpoint skip_white (s : string) : string :=
  match s with
  | String c t => if is_white c then skip_white t else s
  | EmptyString => s
  end.

Definition digit_of (c : ascii) : option Z :=
  let n := N_of_ascii c in
  if ((48 <=? n)%N && (n <=? 57)%N) then Some (Z.of_N n - 48)%Z else None.

Fixpoint digits (acc : option Z) (s : string) : option Z :=
  match s with
  | EmptyString => acc
  | String c t =>
      match digit_of c with
      | Some d => digits (Some (10 * default 0%Z acc + d)%Z) t
      | None => acc
      end
  end.

Definition parseInt10 (v : value) : number :=
  match v with
  | VStr s =>
      let s1 := skip_white s in
      let (neg, s2) :=
        match s1 with
        | String "-" t => (true, t)
        | String "+" t => (false, t)
        | _ => (false, s1)
        end in
      match digits None s2 with
      | Some n => Int (if neg then - n else n)%Z
      | None => NaN
      end
  | VNum n => n
  | _ => NaN
  end.

End JS.

(** ** [buf.toString("base64")] and its inverse *)

Module Base64.

Definition alphabet : string :=
  "ABCDEFGHIJKLMNOPQRSTUVWXYZabcdefghijklmnopqrstuvwxyz0123456789+/".

Definition pad : ascii := "="%char.

Definition char_of (n : N) : ascii :=
  match String.get (N.to_nat n) alphabet with
  | Some c => c
  | None => pad
  end.

Definition sextet1 (a : N) : N := (a / 4)%N.
Definition sextet2 (a b : N) : N := ((a mod 4) * 16 + b / 16)%N.
Definition sextet3 (b c : N) : N := ((b mod 16) * 4 + c / 64)%N.
Definition sextet4 (c : N) : N := (c mod 64)%N.

Fixpoint encode (bs : list byte) : string :=
  match bs with
  | [] => EmptyString
  | [a] =>
      let a := Byte.to_N a in
      String (char_of (sextet1 a)) (String (char_of (sextet2 a 0))
        (String pad (String pad EmptyString)))
  | [a; b] =>
      let a := Byte.to_N a in
      let b := Byte.to_N b in
      String (char_of (sextet1 a)) (String (char_of (sextet2 a b))
        (String (char_of (sextet3 b 0)) (String pad EmptyString)))
  | a :: b :: c :: rest =>
      let a := Byte.to_N a in
      let b := Byte.to_N b in
      let c := Byte.to_N c in
      String (char_of (sextet1 a)) (String (char_of (sextet2 a b))
        (String (char_of (sextet3 b c)) (String (char_of (sextet4 c))
          (encode rest))))
  end.

Fixpoint index_from (i : N) (c : ascii) (s : string) : option N :=
  match s with
  | EmptyString => None
  | String c' t => if Ascii.eqb c c' then Some i else index_from (N.succ i) c t
  end.

Definition value_of (c : ascii) : option N := index_from 0 c alphabet.

Definition octet1 (s1 s2 : N) : byte := JS.byte_of_N (s1 * 4 + s2 / 16).
Definition octet2 (s2 s3 : N) : byte := JS.byte_of_N ((s2 mod 16) * 16 + s3 / 4).
Definition octet3 (s3 s4 : N) : byte := JS.byte_of_N ((s3 mod 4) * 64 + s4).

(** The decoder of a verifier: groups of four characters, padding allowed
    in the last group only. *)
Fixpoint decode (s : string) : option (list byte) :=
  match s with
  | EmptyString => Some []
  | String c1 (String c2 (String c3 (String c4 rest))) =>
      match value_of c1, value_of c2 with
      | Some s1, Some s2 =>
          match value_of c3, value_of c4, rest with
          | Some s3, Some s4, _ =>
              match decode rest with
              | Some bs => Some (octet1 s1 s2 :: octet2 s2 s3 :: octet3 s3 s4 :: bs)
              | None => None
              end
          | Some s3, None, EmptyString =>
              if Ascii.eqb c4 pad then Some [octet1 s1 s2; octet2 s2 s3] else None
          | None, None, EmptyString =>
              if Ascii.eqb c3 pad && Ascii.eqb c4 pad then Some [octet1 s1 s2] else None
          | _, _, _ => None
          end
      | _, _ => None
      end
  | _ => None
  end.

End Base64.

(** ** The cipher behind [crypto.createCipheriv("aes-256-cbc", key, iv)]

    AES with a 256-bit key (FIPS 197) in cipher block chaining mode with
    PKCS#7 padding, on bytes held in [N]. *)

Module AES.

Local Open Scope list_scope.

Definition xtime (b : N) : N :=
  let d := N.land (N.shiftl b 1) 255 in
  if N.testbit b 7 then N.lxor d 27 else d.

(** Multiplication in GF(2^8), eight steps of shift and add. *)
Fixpoint gmul_aux (n : nat) (a b : N) : N :=
  match n with
  | O => 0%N
  | S n' =>
      N.lxor (if N.odd b then a else 0%N) (gmul_aux n' (xtime a) (N.shiftr b 1))
  end.

Definition gmul : N -> N -> N := gmul_aux 8.

(** The multiplicative inverse, [a^254]. *)
Definition ginv (a : N) : N :=
  let a2 := gmul a a in
  let a4 := gmul a2 a2 in
  let a8 := gmul a4 a4 in
  let a16 := gmul a8 a8 in
  let a32 := gmul a16 a16 in
  let a64 := gmul a32 a32 in
  let a128 := gmul a64 a64 in
  gmul a128 (gmul a64 (gmul a32 (gmul a16 (gmul a8 (gmul a4 a2))))).

Definition rotl8 (b : N) (k : N) : N :=
  N.land (N.lor (N.shiftl b k) (N.shiftr b (8 - k))) 255.

Definition sbox_calc (a : N) : N :=
  let x := ginv a in
  N.lxor x (N.lxor (rotl8 x 1) (N.lxor (rotl8 x 2) (N.lxor (rotl8 x 3)
    (N.lxor (rotl8 x 4) 99)))).

Definition sbox_table : list N :=
  Eval vm_compute in map (fun i => sbox_calc (N.of_nat i)) (seq 0 256).

Definition sbox (b : N) : N := nth (N.to_nat b) sbox_table 0%N.

Definition word := list N.

Definition xor_bytes (a b : list N) : list N := zip_with N.lxor a b.

Definition rot_word (w : word) : word :=
  match w with
  | a :: t => t ++ [a]
  | [] => []
  end.

Definition sub_word (w : word) : word := map sbox w.

Definition rcon (i : nat) : N := Nat.iter (i - 1) xtime 1%N.

Fixpoint words_of (n : nat) (key : list N) : list word :=
  match n with
  | O => []
  | S n' => take 4 key :: words_of n' (drop 4 key)
  end.

Definition next_word (ws : list word) : word :=
  let i := length ws in
  let prev := nth (i - 1) ws [] in
  let temp :=
    if (i mod 8 =? 0)%nat then xor_bytes (sub_word (rot_word prev)) [rcon (i / 8); 0; 0; 0]%N
    else if (i mod 8 =? 4)%nat then sub_word prev
    else prev in
  xor_bytes (nth (i - 8) ws []) temp.

(** [KeyExpansion] for Nk = 8, Nr = 14: sixty words. *)
Definition key_expansion (key : list N) : list word :=
  Nat.iter 52 (fun ws => ws ++ [next_word ws]) (words_of 8 key).

Definition round_key (ws : list word) (r : nat) : list N :=
  map (fun i => nth (i mod 4) (nth (4 * r + i / 4) ws []) 0%N) (seq 0 16).

Definition add_round_key (st rk : list N) : list N :=
  map (fun i => N.lxor (nth i st 0%N) (nth i rk 0%N)) (seq 0 16).

Definition sub_bytes (st : list N) : list N := map sbox st.

(** The state is held column by column: byte [r + 4c] is row [r] of
    column [c]. *)
Definition shift_rows (st : list N) : list N :=
  map (fun i => nth (i mod 4 + 4 * ((i / 4 + i mod 4) mod 4)) st 0%N) (seq 0 16).

Definition mix_column (a0 a1 a2 a3 : N) : list N :=
  [ N.lxor (xtime a0) (N.lxor (N.lxor (xtime a1) a1) (N.lxor a2 a3));
    N.lxor a0 (N.lxor (xtime a1) (N.lxor (N.lxor (xtime a2) a2) a3));
    N.lxor a0 (N.lxor a1 (N.lxor (xtime a2) (N.lxor (xtime a3) a3)));
    N.lxor (N.lxor (xtime a0) a0) (N.lxor a1 (N.lxor a2 (xtime a3))) ].

Definition mix_columns (st : list N) : list N :=
  flat_map
    (fun c => mix_column (nth (4 * c) st 0%N) (nth (4 * c + 1) st 0%N)
                         (nth (4 * c + 2) st 0%N) (nth (4 * c + 3) st 0%N))
    (seq 0 4).

Definition round (ws : list word) (st : list N) (r : nat) : list N :=
  add_round_key (mix_columns (shift_rows (sub_bytes st))) (round_key ws r).

Definition encrypt_block (ws : list word) (blk : list N) : list N :=
  let st := add_round_key blk (round_key ws 0) in
  let st := fold_left (round ws) (seq 1 13) st in
  add_round_key (shift_rows (sub_bytes st)) (round_key ws 14).

(** PKCS#7: between one and sixteen padding bytes, each the pad length. *)
Definition pkcs7 (pt : list N) : list N :=
  let p := (16 - length pt mod 16)%nat in
  pt ++ replicate p (N.of_nat p).

Fixpoint cbc (ws : list word) (n : nat) (prev : list N) (data : list N) : list N :=
  match n with
  | O => []
  | S n' =>
      let c := encrypt_block ws (xor_bytes (take 16 data) prev) in
      c ++ cbc ws n' c (drop 16 data)
  end.

(** [cipher.update(pt)] followed by [cipher.final()]. *)
Definition cbc_encrypt (key iv pt : list byte) : list byte :=
  let ws := key_expansion (map Byte.to_N key) in
  let padded := pkcs7 (map Byte.to_N pt) in
  map JS.byte_of_N (cbc ws (length padded / 16) (map Byte.to_N iv) padded).

(** [createCipheriv] checks the vector, then the key. *)
Definition createCipheriv (key iv : list byte) : JS.result (list byte -> list byte) :=
  if negb (length iv =? 16)%nat then JS.Throw (JS.TypeError "Invalid initialization vector")
  else if negb (length key =? 32)%nat then JS.Throw (JS.RangeError "Invalid key length")
  else JS.Ok (cbc_encrypt key iv).

End AES.

(** ** The operations of Node's [Buffer] that the issuer uses

    Where Node itself throws, the exception of the model carries the
    error code in place of the message text. *)

Module Buffer.

Import JS.
Local Open Scope list_scope.

Definition alloc (n : nat) : list byte := replicate n x00.

(** Overwrite [buf] from [off] on with [src]; what would fall beyond the
    end of [buf] is dropped, as [src.copy(buf, off)] does. *)
Definition copy (src : list byte) (buf : list byte) (off : nat) : list byte :=
  take off buf ++ take (length buf - off) src ++ drop (off + length src) buf.

(** The [n] low bytes of [v], most significant first; a negative [v]
    comes out in two's complement. *)
Fixpoint be_bytes (n : nat) (v : Z) : list byte :=
  match n with
  | O => []
  | S n' => byte_of_N (Z.to_N ((v / 256 ^ Z.of_nat n') mod 256)) :: be_bytes n' v
  end.

Definition writeBigInt64BE (v : Z) (off : nat) (buf : list byte) : result (list byte) :=
  if ((v <? - 2 ^ 63) || (2 ^ 63 <=? v))%Z then Throw (RangeError "ERR_OUT_OF_RANGE")
  else if (length buf <? off + 8)%nat then Throw (RangeError "ERR_BUFFER_OUT_OF_BOUNDS")
  else Ok (copy (be_bytes 8 v) buf off).

Definition writeUInt16BE (v : Z) (off : nat) (buf : list byte) : result (list byte) :=
  if ((v <? 0) || (65535 <? v))%Z then Throw (RangeError "ERR_OUT_OF_RANGE")
  else if (length buf <? off + 2)%nat then Throw (RangeError "ERR_BUFFER_OUT_OF_BOUNDS")
  else Ok (copy (be_bytes 2 v) buf off).

(** The readers of a verifier. *)
Definition read_unsigned (bs : list byte) : Z :=
  fold_left (fun acc b => (acc * 256 + Z.of_N (Byte.to_N b))%Z) bs 0%Z.

Definition readBigInt64BE (bs : list byte) : Z :=
  let u := read_unsigned (take 8 bs) in
  if (u <? 2 ^ 63)%Z then u else (u - 2 ^ 64)%Z.

Definition readUInt16BE (bs : list byte) : Z := read_unsigned (take 2 bs).

End Buffer.

(** ** The Token04 issuer *)

Module Token.

Import JS.
Local Open Scope js_scope.

Definition chars : string := "0123456789abcdefghijklmnopqrstuvwxyz".

(** [s[i]] inside a [join]: an index outside the string gives
    [undefined], which joins as the empty string. *)
Definition char_at (s : string) (i : Z) : string :=
  match i with
  | Zneg _ => EmptyString
  | _ =>
      match String.get (Z.to_nat i) s with
      | Some c => String c EmptyString
      | None => EmptyString
      end
  end.

(** [chars[Math.floor(Math.random() * chars.length)]] for one draw. *)
Definition pick (d : draw) : string :=
  char_at chars (Qfloor (times (Z.of_nat (String.length chars)) d)).

(** [Array.from({ length: n }, f)] joined on the empty string, with [f]
    drawing one character. *)
Fixpoint random_chars (n : nat) : M string :=
  match n with
  | O => ret EmptyString
  | S n' =>
      let* d := Math_random in
      let* rest := random_chars n' in
      ret (pick d ++ rest)
  end.

Definition makeRandomIv : M string := random_chars 16.

Definition aesEncrypt (plainText : string) (key : value) (iv : string) : result (list byte) :=
  match Buffer_from key with
  | Throw e => Throw e
  | Ok keyBuf =>
      match AES.createCipheriv keyBuf (utf8 iv) with
      | Throw e => Throw e
      | Ok cipher => Ok (cipher (utf8 plainText))
      end
  end.

(** [Math.ceil((-2147483648 + 4294967295) * Math.random())] for one draw. *)
Definition make_nonce (d : draw) : Z :=
  Qceiling (times (-2147483648 + 4294967295) d).

Definition tokenInfo (appId userId : value) (nonce createTime expireTime : Z)
    (payload : value) : list (string * value) :=
  [ ("app_id", appId);
    ("user_id", userId);
    ("nonce", VNum (Int nonce));
    ("ctime", VNum (Int createTime));
    ("expire", VNum (Int expireTime));
    ("payload", if truthy payload then payload else VStr EmptyString) ].

(** The packing of the envelope, lines 55 to 66. *)
Definition pack (expireTime : Z) (iv : string) (encryptedBuf : list byte) : result string :=
  let ivBuf := utf8 iv in
  let totalLen := (8 + 2 + length ivBuf + 2 + length encryptedBuf)%nat in
  let buf := Buffer.alloc totalLen in
  let offset := 0%nat in
  match Buffer.writeBigInt64BE expireTime offset buf with
  | Throw e => Throw e
  | Ok buf =>
      let offset := (offset + 8)%nat in
      match Buffer.writeUInt16BE (Z.of_nat (length ivBuf)) offset buf with
      | Throw e => Throw e
      | Ok buf =>
          let offset := (offset + 2)%nat in
          let buf := Buffer.copy ivBuf buf offset in
          let offset := (offset + length ivBuf)%nat in
          match Buffer.writeUInt16BE (Z.of_nat (length encryptedBuf)) offset buf with
          | Throw e => Throw e
          | Ok buf =>
              let offset := (offset + 2)%nat in
              let buf := Buffer.copy encryptedBuf buf offset in
              Ok ("04" ++ Base64.encode buf)
          end
      end
  end.

(** [BigInt(expireTime)] is exact on an integer. *)
Definition generateToken04 (appId userId serverSecret : value)
    (effectiveTimeInSeconds : Z) (payload : value) : M string :=
  let payload := match payload with VUndefined => VStr EmptyString | _ => payload end in
  if negb (truthy appId) || negb (String.eqb (typeof appId) "number")
  then throw (Error "appId must be a number")
  else if negb (truthy userId) || negb (String.eqb (typeof userId) "string")
  then throw (Error "userId must be a string")
  else if negb (truthy serverSecret) || negb (strict_eq_num (length_of serverSecret) 32)
  then throw (Error "serverSecret must be 32 chars")
  else
    let* now := Date_now in
    let createTime := (now / 1000)%Z in
    let expireTime := (createTime + effectiveTimeInSeconds)%Z in
    let* r := Math_random in
    let nonce := make_nonce r in
    let plainText :=
      JSON_stringify (tokenInfo appId userId nonce createTime expireTime payload) in
    let* iv := makeRandomIv in
    let* encryptedBuf := lift (aesEncrypt plainText serverSecret iv) in
    lift (pack expireTime iv encryptedBuf).

End Token.

(** ** The room registry and its handlers *)

(** Modelled from the spec: the [User] schema ([models/User.js]) is not
    among the sources; the caller is the "authenticated caller object
    exposing id, displayName, organizationId, subscriptionTier", with the
    field names the handlers read.  [_id] and [organization] stand for
    the results of their [toString()]. *)
Module User.

Record t := mk {
  _id : string;
  name : string;
  plan : JS.value;
  organization : string
}.

End User.

Module Room.

Record t := mk {
  id : string;
  title : JS.value;
  type : JS.value;
  hostId : string;
  hostName : string;
  organization : string;
  participants : Z;
  createdAt : Z;
  live : bool
}.

End Room.

(** A JavaScript [Map] with string keys: the entries in insertion order,
    which is the order in which [values()], and so the listing of the
    rooms, yields them; at most one entry per key. *)
Module Map.

Local Open Scope list_scope.

Definition t (V : Type) : Type := list (string * V).

Definition empty {V} : t V := [].

Fixpoint get {V} (k : string) (m : t V) : option V :=
  match m with
  | [] => None
  | (k', v) :: rest => if String.eqb k k' then Some v else get k rest
  end.

(** [m.set(k, v)]: a present key keeps its place, a new one goes last. *)
Fixpoint set {V} (k : string) (v : V) (m : t V) : t V :=
  match m with
  | [] => [(k, v)]
  | (k', v') :: rest =>
      if String.eqb k k' then (k, v) :: rest else (k', v') :: set k v rest
  end.

Fixpoint delete {V} (k : string) (m : t V) : t V :=
  match m with
  | [] => []
  | (k', v) :: rest =>
      if String.eqb k k' then delete k rest else (k', v) :: delete k rest
  end.

Definition values {V} (m : t V) : list V := map snd m.

End Map.

Module Rooms.

Import JS.

(** [process.env]: a variable is a string or is not set. *)
Record env := mk_env {
  ZEGO_APP_ID : option string;
  ZEGO_SERVER_SECRET : option string
}.

Definition env_value (o : option string) : value :=
  match o with
  | Some s => VStr s
  | None => VUndefined
  end.

(** The server state: the module-level [activeRooms] and the callbacks
    handed to [setTimeout] that have not fired yet (delay in ms, room). *)
Record server := mk_server {
  activeRooms : Map.t Room.t;
  timers : list (Z * string)
}.

(** The body of the token response; a field that the object literal
    does not have is [None]. *)
Record token_reply := mk_token_reply {
  token : string;
  userId : string;
  userName : string;
  roomId : value;
  appId : number;
  isHost : option bool;
  demo : option bool
}.

Inductive body :=
| BError (error : string) (message : option string)
| BThrown (e : exn)            (* { error: err.message } *)
| BToken (t : token_reply)
| BRoom (r : Room.t)
| BRooms (rs : list Room.t)
| BMessage (message : string).

Record response := mk_response {
  status : nat;
  json : body
}.

(** [user.plan === "free" || !user.plan] *)
Definition premium_required (user : User.t) : bool :=
  strict_eq_str (User.plan user) "free" || negb (truthy (User.plan user)).

(** [activeRooms.get(roomId)] for a key of any type: only a string can
    be the key of a room. *)
Definition get_room (roomId : value) (rooms : Map.t Room.t) : option Room.t :=
  match roomId with
  | VStr k => Map.get k rooms
  | _ => None
  end.

(** POST /api/rooms/token.  The handler catches what the issuer throws
    and answers 500 with the message. *)
Definition post_token (e : env) (st : server) (user : User.t) (roomId : value)
    : world -> response * world :=
  fun w =>
    if premium_required user then
      (mk_response 403
         (BError "premium_required" (Some "Live Rooms require a Pro subscription.")), w)
    else if negb (truthy roomId) then
      (mk_response 400 (BError "roomId is required" None), w)
    else
      let appId := parseInt10 (env_value (ZEGO_APP_ID e)) in
      let serverSecret := env_value (ZEGO_SERVER_SECRET e) in
      if negb (truthy (VNum appId)) || negb (truthy serverSecret) then
        (mk_response 200
           (BToken (mk_token_reply "ZEGO_NOT_CONFIGURED" (User._id user) (User.name user)
                      roomId (Int 0) None (Some true))), w)
      else
        let userId := User._id user in
        match Token.generateToken04 (VNum appId) (VStr userId) serverSecret 3600 VUndefined w with
        | (Throw err, w') => (mk_response 500 (BThrown err), w')
        | (Ok token, w') =>
            let room := get_room roomId (activeRooms st) in
            let isHost :=
              match room with
              | Some r => String.eqb (Room.hostId r) userId
              | None => false
              end in
            (mk_response 200
               (BToken (mk_token_reply token userId (User.name user) roomId appId
                          (Some isHost) None)), w')
        end.

Section CreateRoom.

(** [Number.prototype.toString(36)] of a fraction: its digits are left
    to the engine by the language specification. *)
Variable toString36 : draw -> string.

Local Open Scope js_scope.

(** [`room_${Date.now()}_${Math.random().toString(36).slice(2, 7)}`] *)
Definition new_room_id : M string :=
  let* now := Date_now in
  let* r := Math_random in
  ret ("room_" ++ Z_to_string now ++ "_" ++ substring 2 5 (toString36 r)).

(** The object literal of the handler; [new Date()] reads the clock. *)
Definition new_room (user : User.t) (title type : value) : M Room.t :=
  let* roomId := new_room_id in
  let* createdAt := Date_now in
  ret (Room.mk roomId title type (User._id user) (User.name user)
               (User.organization user) 0 createdAt true).

(** POST /api/rooms/create-room *)
Definition post_create_room (st : server) (user : User.t) (title type : value)
    : world -> response * server * world :=
  fun w =>
    if premium_required user then
      (mk_response 403 (BError "premium_required" None), st, w)
    else
      let type := match type with VUndefined => VStr "audio" | _ => type end in
      if negb (truthy title) then
        (mk_response 400 (BError "title required" None), st, w)
      else
        match new_room user title type w with
        | (Throw err, w') => (mk_response 500 (BThrown err), st, w')
        | (Ok room, w') =>
            let roomId := Room.id room in
            (mk_response 200 (BRoom room),
             mk_server (Map.set roomId room (activeRooms st))
                       (timers st ++ [((4 * 60 * 60 * 1000)%Z, roomId)])%list,
             w')
        end.

End CreateRoom.

(** GET /api/rooms/list *)
Definition get_list (st : server) (user : User.t) : response :=
  let orgId := User.organization user in
  let rooms :=
    List.filter (fun r => String.eqb (Room.organization r) orgId && Room.live r)
                (Map.values (activeRooms st)) in
  mk_response 200 (BRooms rooms).

(** DELETE /api/rooms/close/:roomId *)
Definition delete_close (st : server) (user : User.t) (roomId : string)
    : response * server :=
  match Map.get roomId (activeRooms st) with
  | None => (mk_response 404 (BError "Room not found" None), st)
  | Some room =>
      if negb (String.eqb (Room.hostId room) (User._id user)) then
        (mk_response 403 (BError "Only the host can close the room" None), st)
      else
        (mk_response 200 (BMessage "Room closed"),
         mk_server (Map.delete roomId (activeRooms st)) (timers st))
  end.

(** The [i]-th pending callback of [setTimeout] fires:
    [activeRooms.delete(roomId)]. *)
Definition timer_fires (st : server) (i : nat) : server :=
  match nth_error (timers st) i with
  | Some (_, roomId) =>
      mk_server (Map.delete roomId (activeRooms st))
                (firstn i (timers st) ++ skipn (S i) (timers st))%list
  | None => st
  end.

End Rooms.

(** ** The authentication middleware ([src/middleware/authMiddleware.js])
    and the routes that it guards *)

Module Auth.

Import JS.

(** [s.split(" ")]: the fields between single spaces; never empty. *)
Fixpoint split_space (s : string) : list string :=
  match s with
  | EmptyString => [EmptyString]
  | String c t =>
      if Ascii.eqb c " " then EmptyString :: split_space t
      else
        match split_space t with
        | h :: r => String c h :: r
        | [] => [String c EmptyString]
        end
  end.

(** [authHeader.split(" ")[1]] *)
Definition second_field (authHeader : string) : value :=
  match split_space authHeader with
  | _ :: token :: _ => VStr token
  | _ => VUndefined
  end.

(** What the middleware does with a request: it answers 401 with a
    text, or sets [req.user] and calls [next()]. *)
Inductive outcome :=
| Rejected (text : string)
| Next (user : User.t).

Section Middleware.

(** [jwt.verify(token, secret).id]: the library checks the token and
    throws when it does not verify. *)
Variable decoded_id : value -> option string -> result value.

(** [User.findById(id)] on the database of the moment: a user, no user,
    or an exception of the driver. *)
Variable findById : value -> result (option User.t).

Definition authMiddleware (JWT_SECRET : option string) (authorization : option string)
    : outcome :=
  match authorization with
  | None => Rejected "No token provided"
  | Some EmptyString => Rejected "No token provided"
  | Some authHeader =>
      let token := second_field authHeader in
      match decoded_id token JWT_SECRET with
      | Throw _ => Rejected "Invalid token"
      | Ok id =>
          match findById id with
          | Throw _ => Rejected "Invalid token"
          | Ok None => Rejected "User not found"
          | Ok (Some user) => Next user
          end
      end
  end.

End Middleware.

End Auth.

(** The four routes of the router, each behind the middleware. *)
Module Routes.

Import JS.

Inductive reply :=
| Unauthorized (text : string)       (* res.status(401).json(text) *)
| Handled (r : Rooms.response).

Section Routes.

Variable decoded_id : value -> option string -> result value.
Variable findById : value -> result (option User.t).
Variable toString36 : draw -> string.
Variable JWT_SECRET : option string.

(** router.post("/token", authMiddleware, ...) *)
Definition route_token (e : Rooms.env) (st : Rooms.server) (authorization : option string)
    (roomId : value) (w : world) : reply * Rooms.server * world :=
  match Auth.authMiddleware decoded_id findById JWT_SECRET authorization with
  | Auth.Rejected text => (Unauthorized text, st, w)
  | Auth.Next user =>
      let (r, w') := Rooms.post_token e st user roomId w in (Handled r, st, w')
  end.

(** router.post("/create-room", authMiddleware, ...) *)
Definition route_create_room (st : Rooms.server) (authorization : option string)
    (title type : value) (w : world) : reply * Rooms.server * world :=
  match Auth.authMiddleware decoded_id findById JWT_SECRET authorization with
  | Auth.Rejected text => (Unauthorized text, st, w)
  | Auth.Next user =>
      match Rooms.post_create_room toString36 st user title type w with
      | (r, st', w') => (Handled r, st', w')
      end
  end.

(** router.get("/list", authMiddleware, ...) *)
Definition route_list (st : Rooms.server) (authorization : option string) (w : world)
    : reply * Rooms.server * world :=
  match Auth.authMiddleware decoded_id findById JWT_SECRET authorization with
  | Auth.Rejected text => (Unauthorized text, st, w)
  | Auth.Next user => (Handled (Rooms.get_list st user), st, w)
  end.

(** router.delete("/close/:roomId", authMiddleware, ...) *)
Definition route_close (st : Rooms.server) (authorization : option string)
    (roomId : string) (w : world) : reply * Rooms.server * world :=
  match Auth.authMiddleware decoded_id findById JWT_SECRET authorization with
  | Auth.Rejected text => (Unauthorized text, st, w)
  | Auth.Next user =>
      let (r, st') := Rooms.delete_close st user roomId in (Handled r, st', w)
  end.

End Routes.

End Routes.

(** * The vocabulary of the specification *)

Import JS.

(** Every character takes one byte in UTF-8. *)
Definition ascii_only (s : string) : bool :=
  forallb (fun c => (N_of_ascii c <? 128)%N) (list_ascii_of_string s).

(** The lowercase alphanumeric alphabet, 0-9 and a-z. *)
Definition lower_alnum (c : ascii) : bool :=
  let n := N_of_ascii c in
  (((48 <=? n) && (n <=? 57)) || ((97 <=? n) && (n <=? 122)))%N.

Definition all_lower_alnum (s : string) : bool :=
  forallb lower_alnum (list_ascii_of_string s).

(** The world after [n] more results of [Math.random()] are consumed. *)
Definition skip_draws (n : nat) (w : world) : world :=
  World (time_src w) (time_reads w) (rand_src w) (n + rand_reads w).

(** The world after one more result of [Date.now()] is consumed. *)
Definition skip_clock (w : world) : world :=
  World (time_src w) (S (time_reads w)) (rand_src w) (rand_reads w).

(** The envelope of the wire format:
    int64 expiresAt (BE) | uint16 ivLen (BE) | iv | uint16 cipherLen (BE) | cipher. *)
Definition envelope (expiresAt : Z) (iv cipher : list byte) : list byte :=
  (Buffer.be_bytes 8 expiresAt ++ Buffer.be_bytes 2 (Z.of_nat (length iv)) ++ iv ++
   Buffer.be_bytes 2 (Z.of_nat (length cipher)) ++ cipher)%list.

(** The canonical text of the claims, fields in the order appId, userId,
    nonce, createdAt, expiresAt, payload. *)
Definition claims_text (appId userId nonce createdAt expiresAt payload : string) : string :=
  "{" ++ quote "app_id" ++ ":" ++ appId ++ "," ++
         quote "user_id" ++ ":" ++ userId ++ "," ++
         quote "nonce" ++ ":" ++ nonce ++ "," ++
         quote "ctime" ++ ":" ++ createdAt ++ "," ++
         quote "expire" ++ ":" ++ expiresAt ++ "," ++
         quote "payload" ++ ":" ++ payload ++ "}".

(** What the three guards of the issuer let through. *)
Definition valid_appId (v : value) : bool :=
  match v with
  | VNum (Int z) => negb (z =? 0)%Z
  | _ => false
  end.

Definition valid_userId (v : value) : bool :=
  match v with
  | VStr (String _ _) => true
  | _ => false
  end.

Definition valid_secret (v : value) : bool :=
  match v with
  | VStr s => (String.length s =? 32)%nat
  | _ => false
  end.

(** What one call of the issuer on world [w] reads from it. *)
Definition createTime_of (w : world) : Z := (time_src w (time_reads w) / 1000)%Z.

Definition nonce_of (w : world) : Z := Token.make_nonce (rand_src w (rand_reads w)).

(** The default value of the parameter [payload], the empty string. *)
Definition default_payload (payload : value) : value :=
  match payload with
  | VUndefined => VStr EmptyString
  | _ => payload
  end.

(** The text that a call of the issuer on world [w] encrypts. *)
Definition plainText_of (appId userId : value) (lifetime : Z) (payload : value)
    (w : world) : string :=
  JSON_stringify
    (Token.tokenInfo appId userId (nonce_of w) (createTime_of w)
       (createTime_of w + lifetime) (default_payload payload)).

(** The world after a call of the issuer that got past its guards: one
    reading of the clock, one draw for the nonce, sixteen for the vector. *)
Definition after_issue (w : world) : world := skip_draws 17 (skip_clock w).

(** The rooms that a listing returns to [caller]. *)
Definition listed (st : Rooms.server) (caller : User.t) : list Room.t :=
  match Rooms.json (Rooms.get_list st caller) with
  | Rooms.BRooms rooms => rooms
  | _ => []
  end.

(** The invariant of the registry: every room is stored under its own
    id and is live, and no key occurs twice. *)
Definition entry_ok (e : string * Room.t) : bool :=
  String.eqb (Room.id (snd e)) (fst e) && Room.live (snd e).

Definition has_key {V} (k : string) (m : Map.t V) : bool :=
  existsb (fun e => String.eqb k (fst e)) m.

Fixpoint unique_keys {V} (m : Map.t V) : bool :=
  match m with
  | [] => true
  | (k, _) :: rest => negb (has_key k rest) && unique_keys rest
  end.

Definition registry_ok (st : Rooms.server) : bool :=
  forallb entry_ok (Rooms.activeRooms st) && unique_keys (Rooms.activeRooms st).

(** The states that the server can be in: it starts with no room, and
    changes when a room is created or closed or when a timer fires. *)
Inductive reachable (toString36 : draw -> string) : Rooms.server -> Prop :=
| reach_start : reachable toString36 (Rooms.mk_server Map.empty [])
| reach_create st user title type w :
    reachable toString36 st ->
    reachable toString36 (snd (fst (Rooms.post_create_room toString36 st user title type w)))
| reach_close st user roomId :
    reachable toString36 st ->
    reachable toString36 (snd (Rooms.delete_close st user roomId))
| reach_timer st i :
    reachable toString36 st ->
    reachable toString36 (Rooms.timer_fires st i).

(** ** Sample inputs *)

(** A clock stopped at 1700000000123 ms and the draws 1/4, 0, 63/64,
    1023/1024, then 1/2 for ever. *)
Definition sample_world : world :=
  World (fun _ => 1700000000123%Z) 0
        (fun i =>
           match i with
           | 0%nat => Draw 1 2 eq_refl
           | 1%nat => Draw 0 0 eq_refl
           | 2%nat => Draw 63 6 eq_refl
           | 3%nat => Draw 1023 10 eq_refl
           | _ => Draw 1 1 eq_refl
           end) 0.

Definition sample_secret : string := "0123456789abcdef0123456789abcdef".

Definition sample_userId : string := "64b7f0c2a1d3e4f5a6b7c8d9".


(** Thirty-one digits and U+00E9: thirty-two characters, thirty-three
    bytes. *)
Definition long_byte_secret : string :=
  ("0123456789abcdef0123456789abcde" ++ String (ascii_of_N 233) EmptyString)%string.


(** The token that the issuer returns on the sample inputs. *)
Definition sample_token : string :=
  match fst (Token.generateToken04 (VNum (Int 123456)) (VStr sample_userId)
               (VStr sample_secret) 3600 VUndefined sample_world) with
  | Ok tok => tok
  | Throw _ => EmptyString
  end.

(** An instance of [toString(36)] on fractions: the exact expansion
    in base 36, cut after eleven digits. *)
Fixpoint frac36 (fuel : nat) (n d : Z) : string :=
  match fuel with
  | O => EmptyString
  | S fuel' =>
      if (n =? 0)%Z then EmptyString
      else Token.char_at Token.chars (36 * n / d) ++ frac36 fuel' ((36 * n) mod d) d
  end.

Definition sample_toString36 (r : draw) : string :=
  if (mant r =? 0)%Z then "0" else "0." ++ frac36 11 (mant r) (2 ^ scale r).

(** The largest binary64 number below 1. *)
Definition draw_below_one : draw := Draw (2 ^ 53 - 1) 53 eq_refl.

Definition sample_host : User.t :=
  User.mk sample_userId "Ada" (VStr "pro") "65a000000000000000000001".

Definition sample_guest : User.t :=
  User.mk "64b7f0c2a1d3e4f5a6b7c8da" "Bob" (VStr "pro") "65a000000000000000000001".


Definition sample_free : User.t :=
  User.mk "64b7f0c2a1d3e4f5a6b7c8dc" "Dan" (VStr "free") "65a000000000000000000001".

Definition sample_env : Rooms.env := Rooms.mk_env (Some "123456") (Some sample_secret).

Definition sample_room : Room.t :=
  Room.mk "room_1700000000123_9" (VStr "Sprint Retro") (VStr "audio") sample_userId "Ada"
          "65a000000000000000000001" 0 1700000000123 true.

(** The server after [sample_host] created "Sprint Retro" on an empty
    registry. *)
Definition sample_server : Rooms.server :=
  Rooms.mk_server [("room_1700000000123_9", sample_room)]
                  [((4 * 60 * 60 * 1000)%Z, "room_1700000000123_9")].

(** What the token handler answers to [user] about the sample room. *)
Definition sample_reply (user : User.t) : Rooms.token_reply :=
  match Rooms.json (fst (Rooms.post_token sample_env sample_server user
                           (VStr "room_1700000000123_9") sample_world)) with
  | Rooms.BToken t => t
  | _ => Rooms.mk_token_reply EmptyString EmptyString EmptyString VUndefined NaN None None
  end.

(** Bytes written in hexadecimal, for the published test vectors. *)
Definition hex_value (c : ascii) : N :=
  let n := N_of_ascii c in
  if (n <? 58)%N then (n - 48)%N else (n - 87)%N.

Fixpoint unhex (s : string) : list byte :=
  match s with
  | String a (String b t) => byte_of_N (16 * hex_value a + hex_value b) :: unhex t
  | _ => []
  end.

(** ** Further vocabulary *)

(** The draw [m / 2 ^ k] when that is a binary64 number below 1, the
    draw 0 otherwise. *)
Definition mk_draw (m k : Z) : draw :=
  match Bool.bool_dec
          ((0 <=? m) && (m <? 2 ^ 53) && (m <? 2 ^ k) && (k <=? 1074))%Z true with
  | left H => Draw m k H
  | right _ => Draw 0 0 eq_refl
  end.

(** A draw, in 64ths, that picks the character [c] of the alphabet. *)
Definition draw_for (c : ascii) : draw :=
  match Base64.index_from 0 c Token.chars with
  | Some i => mk_draw ((64 * Z.of_N i + 35) / 36) 6
  | None => Draw 0 0 eq_refl
  end.

(** A world whose next draws pick the characters of [s], one after the
    other. *)
Definition world_drawing (s : string) : world :=
  World (fun _ => 0%Z) 0
        (fun i => draw_for (nth i (list_ascii_of_string s) "0"%char)) 0.

(** A draw whose nonce is [n], for [n] from 0 to 2147483647. *)
Definition draw_for_nonce (n : Z) : draw :=
  if (n =? 0)%Z then Draw 0 0 eq_refl
  else mk_draw ((2 * n - 1) * 2 ^ 52 / 2147483647) 53.

(** The characters of a base64 text. *)
Definition base64_char (c : ascii) : bool :=
  match Base64.value_of c with
  | Some _ => true
  | None => Ascii.eqb c Base64.pad
  end.

(** The shape of every room that the handlers store. *)
Definition room_shape (e : string * Room.t) : Prop :=
  Room.id (snd e) = fst e /\
  (exists suffix, Room.id (snd e) = ("room_" ++ suffix)%string) /\
  truthy (Room.title (snd e)) = true /\
  Room.type (snd e) <> VUndefined /\
  Room.participants (snd e) = 0%Z /\
  Room.live (snd e) = true.

(** The retention window of a room, in ms. *)
Definition retention : Z := 14400000.


(** A string without a space. *)
Definition no_space (s : string) : bool :=
  forallb (fun c => negb (Ascii.eqb c " ")) (list_ascii_of_string s).

(** A verifier that accepts the token "t0k" under any set secret as a
    token of [sample_host], and a database that holds [sample_host]
    only. *)
Definition sample_decoded_id (token : value) (secret : option string) : result value :=
  match token, secret with
  | VStr t, Some _ =>
      if String.eqb t "t0k" then Ok (VStr sample_userId)
      else Throw (Error "invalid signature")
  | _, _ => Throw (Error "jwt must be provided")
  end.

Definition sample_findById (id : value) : result (option User.t) :=
  match id with
  | VStr s => if String.eqb s sample_userId then Ok (Some sample_host) else Ok None
  | _ => Ok None
  end.

(** * Properties *)

(** ** The primitives against published vectors *)

(** The token of the sample call, as OpenSSL's aes-256-cbc and a base64
    encoder give it for the same claims, key and vector. *)
Example sample_token_value :
  sample_token =
  ("04AAAAAGVT/xAAEDB6emlpaWlpaWlpaWlpaWkAgE4AttoHwKUy6QjKzWN1xsKGWb1FWZvpIH9U4iQTQghM" ++
   "QJ7LSVdy2XozEwrfmakd0l3zrz1GXSc6Dliad/LDVKeuBfEJfr4vjaWlQ5f9HxvYs8wuwPZQnABveXEa" ++
   "K4uxq6HZELeJCMwEbWnLeaULZ+qIAWYXvIcsNb1bOUHcUIVD")%string.
Proof. vm_compute. reflexivity. Qed.

(** FIPS 197, appendix C.3. *)
Example aes256_fips197_c3 :
  map byte_of_N
    (AES.encrypt_block
       (AES.key_expansion
          (map Byte.to_N
             (unhex "000102030405060708090a0b0c0d0e0f101112131415161718191a1b1c1d1e1f")))
       (map Byte.to_N (unhex "00112233445566778899aabbccddeeff")))
  = unhex "8ea2b7ca516745bfeafc49904b496089".
Proof. vm_compute. reflexivity. Qed.

(** NIST SP 800-38A, F.2.5, the first two blocks. *)
Example aes256_cbc_sp800_38a :
  take 32
    (AES.cbc_encrypt
       (unhex "603deb1015ca71be2b73aef0857d77811f352c073b6108d72d9810a30914dff4")
       (unhex "000102030405060708090a0b0c0d0e0f")
       (unhex "6bc1bee22e409f96e93d7e117393172aae2d8a571e03ac9c9eb76fac45af8e51"))
  = unhex "f58c4c04d6e5f1ba779eabfb5f7bfbd69cfc4e967edb808d679f777bc6702c7d".
Proof. vm_compute. reflexivity. Qed.

(** RFC 4648, section 10. *)
Example base64_rfc4648 :
  Base64.encode (utf8 "f") = "Zg==" /\
  Base64.encode (utf8 "fo") = "Zm8=" /\
  Base64.encode (utf8 "foo") = "Zm9v" /\
  Base64.encode (utf8 "foobar") = "Zm9vYmFy".
Proof. repeat split. Qed.

Example utf8_two_bytes : utf8 (String (ascii_of_N 233) EmptyString) = unhex "c3a9".
Proof. reflexivity. Qed.

Example parseInt10_samples :
  parseInt10 (VStr "123456") = Int 123456 /\
  parseInt10 (VStr " -42px") = Int (-42) /\
  parseInt10 (VStr "abc") = NaN /\
  parseInt10 VUndefined = NaN.
Proof. repeat split. Qed.

Example round53_samples :
  round53 5 = 5%Z /\
  round53 (2 ^ 53 + 1) = (2 ^ 53)%Z /\
  round53 (2 ^ 53 + 3) = (2 ^ 53 + 4)%Z /\
  round53 (36 * (2 ^ 53 - 1)) = (36 * 2 ^ 53 - 64)%Z.
Proof. repeat split. Qed.

(** The extreme draw still picks the last character, and gives the
    largest nonce. *)
Example extreme_draw :
  Token.pick draw_below_one = "z" /\ Token.make_nonce draw_below_one = 2147483647%Z.
Proof. split; reflexivity. Qed.

Example be_bytes_negative : Buffer.be_bytes 8 (-2) = unhex "fffffffffffffffe".
Proof. reflexivity. Qed.

(** ** Bytes *)

Lemma byte_of_N_to_N (b : byte) : byte_of_N (Byte.to_N b) = b.
Proof.
  unfold byte_of_N.
  pose proof (Byte.to_N_bounded b) as Hb.
  rewrite N.mod_small by lia.
  now rewrite Byte.of_to_N.
Qed.

Lemma to_N_byte_of_N (n : N) : (n < 256)%N -> Byte.to_N (byte_of_N n) = n.
Proof.
  intros Hn. unfold byte_of_N. rewrite N.mod_small by lia.
  destruct (Byte.of_N n) as [b|] eqn:E.
  - now apply Byte.to_of_N.
  - apply Byte.of_N_None_iff in E. lia.
Qed.

(** ** Base64: decoding undoes encoding *)

Lemma base64_value_of_char_of (n : N) :
  (n < 64)%N -> Base64.value_of (Base64.char_of n) = Some n.
Proof.
  intros Hn.
  assert (Hall : forallb
            (fun i => match Base64.value_of (Base64.char_of (N.of_nat i)) with
                      | Some j => N.eqb j (N.of_nat i)
                      | None => false
                      end) (seq 0 64) = true) by (vm_compute; reflexivity).
  rewrite forallb_forall in Hall.
  specialize (Hall (N.to_nat n)).
  rewrite N2Nat.id in Hall.
  destruct (Base64.value_of (Base64.char_of n)) as [j|].
  - f_equal. apply N.eqb_eq. apply Hall. apply in_seq. lia.
  - discriminate Hall. apply in_seq. lia.
Qed.

Lemma base64_value_of_pad : Base64.value_of Base64.pad = None.
Proof. reflexivity. Qed.

Ltac n_arith :=
  unfold Base64.sextet1, Base64.sextet2, Base64.sextet3, Base64.sextet4 in *;
  zify; Z.to_euclidean_division_equations; lia.

Lemma base64_sextets_lt (a b c : byte) :
  (Base64.sextet1 (Byte.to_N a) < 64)%N /\
  (Base64.sextet2 (Byte.to_N a) (Byte.to_N b) < 64)%N /\
  (Base64.sextet3 (Byte.to_N b) (Byte.to_N c) < 64)%N /\
  (Base64.sextet4 (Byte.to_N c) < 64)%N /\
  (Base64.sextet2 (Byte.to_N a) 0 < 64)%N /\
  (Base64.sextet3 (Byte.to_N b) 0 < 64)%N.
Proof.
  pose proof (Byte.to_N_bounded a). pose proof (Byte.to_N_bounded b).
  pose proof (Byte.to_N_bounded c).
  repeat split; n_arith.
Qed.

Lemma base64_octet1 (a : byte) (b : N) :
  (b < 256)%N ->
  Base64.octet1 (Base64.sextet1 (Byte.to_N a)) (Base64.sextet2 (Byte.to_N a) b) = a.
Proof.
  intros Hb. pose proof (Byte.to_N_bounded a).
  unfold Base64.octet1.
  replace (_ * 4 + _ / 16)%N with (Byte.to_N a) by n_arith.
  apply byte_of_N_to_N.
Qed.

Lemma base64_octet2 (a b : byte) (c : N) :
  (c < 256)%N ->
  Base64.octet2 (Base64.sextet2 (Byte.to_N a) (Byte.to_N b)) (Base64.sextet3 (Byte.to_N b) c) = b.
Proof.
  intros Hc. pose proof (Byte.to_N_bounded a). pose proof (Byte.to_N_bounded b).
  unfold Base64.octet2.
  replace (_ * 16 + _ / 4)%N with (Byte.to_N b) by n_arith.
  apply byte_of_N_to_N.
Qed.

Lemma base64_octet3 (b c : byte) :
  Base64.octet3 (Base64.sextet3 (Byte.to_N b) (Byte.to_N c)) (Base64.sextet4 (Byte.to_N c)) = c.
Proof.
  pose proof (Byte.to_N_bounded b). pose proof (Byte.to_N_bounded c).
  unfold Base64.octet3.
  replace (_ * 64 + _)%N with (Byte.to_N c) by n_arith.
  apply byte_of_N_to_N.
Qed.

Lemma base64_decode_group (a b c : byte) (rest : list byte) :
  Base64.decode (Base64.encode (a :: b :: c :: rest)) =
  match Base64.decode (Base64.encode rest) with
  | Some bs => Some (a :: b :: c :: bs)
  | None => None
  end.
Proof.
  destruct (base64_sextets_lt a b c) as (H1 & H2 & H3 & H4 & _ & _).
  pose proof (Byte.to_N_bounded b) as Hb. pose proof (Byte.to_N_bounded c) as Hc.
  change (Base64.encode (a :: b :: c :: rest)) with
    (String (Base64.char_of (Base64.sextet1 (Byte.to_N a)))
      (String (Base64.char_of (Base64.sextet2 (Byte.to_N a) (Byte.to_N b)))
        (String (Base64.char_of (Base64.sextet3 (Byte.to_N b) (Byte.to_N c)))
          (String (Base64.char_of (Base64.sextet4 (Byte.to_N c))) (Base64.encode rest))))).
  cbn [Base64.decode].
  rewrite !base64_value_of_char_of by assumption.
  rewrite base64_octet1 by lia. rewrite base64_octet2 by lia. rewrite base64_octet3.
  reflexivity.
Qed.

Lemma base64_decode_one (a : byte) : Base64.decode (Base64.encode [a]) = Some [a].
Proof.
  destruct (base64_sextets_lt a a a) as (H1 & _ & _ & _ & H2 & _).
  change (Base64.encode [a]) with
    (String (Base64.char_of (Base64.sextet1 (Byte.to_N a)))
      (String (Base64.char_of (Base64.sextet2 (Byte.to_N a) 0))
        (String Base64.pad (String Base64.pad EmptyString)))).
  cbn [Base64.decode].
  rewrite !base64_value_of_char_of by assumption.
  rewrite base64_value_of_pad. rewrite Ascii.eqb_refl. cbn [andb].
  now rewrite base64_octet1 by lia.
Qed.

Lemma base64_decode_two (a b : byte) : Base64.decode (Base64.encode [a; b]) = Some [a; b].
Proof.
  destruct (base64_sextets_lt a b b) as (H1 & H2 & _ & _ & _ & H3).
  pose proof (Byte.to_N_bounded b) as Hb.
  change (Base64.encode [a; b]) with
    (String (Base64.char_of (Base64.sextet1 (Byte.to_N a)))
      (String (Base64.char_of (Base64.sextet2 (Byte.to_N a) (Byte.to_N b)))
        (String (Base64.char_of (Base64.sextet3 (Byte.to_N b) 0))
          (String Base64.pad EmptyString)))).
  cbn [Base64.decode].
  rewrite !base64_value_of_char_of by assumption.
  rewrite base64_value_of_pad. rewrite Ascii.eqb_refl.
  rewrite base64_octet1 by lia. now rewrite base64_octet2 by lia.
Qed.

(** A verifier that decodes the base64 text of a buffer gets the buffer
    back. *)
Lemma base64_decode_encode (bs : list byte) :
  Base64.decode (Base64.encode bs) = Some bs.
Proof.
  remember (length bs) as n eqn:Hn.
  revert bs Hn. induction n as [n IH] using lt_wf_ind. intros bs Hn.
  destruct bs as [|a [|b [|c rest]]].
  - reflexivity.
  - apply base64_decode_one.
  - apply base64_decode_two.
  - rewrite base64_decode_group.
    rewrite (IH (length rest)); [reflexivity| |reflexivity].
    subst n. cbn [length]. lia.
Qed.

(** ** Buffers: writes land where the layout says, reads undo writes *)

Section BufferFacts.

Local Open Scope list_scope.

Lemma length_be_bytes (n : nat) (v : Z) : length (Buffer.be_bytes n v) = n.
Proof. induction n; cbn [Buffer.be_bytes length]; congruence. Qed.

Lemma buffer_copy_app (pre old post src : list byte) (off : nat) :
  length pre = off -> length old = length src ->
  Buffer.copy src (pre ++ old ++ post) off = pre ++ src ++ post.
Proof.
  intros Hpre Hold. unfold Buffer.copy. subst off.
  rewrite take_app_length.
  rewrite take_ge by (rewrite !length_app; lia).
  rewrite drop_app_add. rewrite <- Hold. rewrite drop_app_length.
  reflexivity.
Qed.

Lemma buffer_copy_head (old post src : list byte) :
  length old = length src -> Buffer.copy src (old ++ post) 0 = src ++ post.
Proof. intros Hold. now apply (buffer_copy_app [] old post src 0). Qed.

Lemma read_unsigned_app (xs ys : list byte) :
  Buffer.read_unsigned (xs ++ ys) =
  fold_left (fun acc b => (acc * 256 + Z.of_N (Byte.to_N b))%Z) ys (Buffer.read_unsigned xs).
Proof. unfold Buffer.read_unsigned. apply fold_left_app. Qed.

Lemma fold_read_shift (bs : list byte) (acc : Z) :
  fold_left (fun acc b => (acc * 256 + Z.of_N (Byte.to_N b))%Z) bs acc =
  (acc * 256 ^ Z.of_nat (length bs) + Buffer.read_unsigned bs)%Z.
Proof.
  unfold Buffer.read_unsigned. revert acc.
  induction bs as [|b bs IH]; intros acc.
  - cbn. lia.
  - cbn [fold_left length]. rewrite IH. rewrite (IH (0 * 256 + _)%Z).
    rewrite Nat2Z.inj_succ, Z.pow_succ_r by lia. lia.
Qed.

Lemma read_unsigned_be_bytes (n : nat) (v : Z) :
  Buffer.read_unsigned (Buffer.be_bytes n v) = (v mod 256 ^ Z.of_nat n)%Z.
Proof.
  induction n as [|n IH].
  - cbn. now rewrite Z.mod_1_r.
  - cbn [Buffer.be_bytes]. unfold Buffer.read_unsigned. cbn [fold_left].
    rewrite fold_read_shift, length_be_bytes, IH.
    assert (Hp : (0 < 256 ^ Z.of_nat n)%Z) by (apply Z.pow_pos_nonneg; lia).
    rewrite to_N_byte_of_N.
    2:{ assert (0 <= (v / 256 ^ Z.of_nat n) mod 256 < 256)%Z by (apply Z.mod_pos_bound; lia). lia. }
    rewrite Z2N.id by (apply Z.mod_pos_bound; lia).
    rewrite Nat2Z.inj_succ, Z.pow_succ_r by lia.
    rewrite (Z.mul_comm 256 (256 ^ Z.of_nat n)).
    rewrite Z.rem_mul_r by lia. lia.
Qed.

Lemma readBigInt64BE_be_bytes (v : Z) (rest : list byte) :
  (- 2 ^ 63 <= v < 2 ^ 63)%Z ->
  Buffer.readBigInt64BE (Buffer.be_bytes 8 v ++ rest) = v.
Proof.
  intros Hv. unfold Buffer.readBigInt64BE.
  rewrite take_app_length' by (symmetry; apply length_be_bytes).
  rewrite read_unsigned_be_bytes.
  change (256 ^ Z.of_nat 8)%Z with (2 ^ 64)%Z.
  destruct (Z.ltb_spec (v mod 2 ^ 64) (2 ^ 63)) as [Hlt|Hge].
  - destruct (Z_lt_le_dec v 0) as [Hneg|Hpos].
    + rewrite <- (Z.mod_add v 1) in Hlt by lia.
      rewrite Z.mod_small in Hlt by lia. lia.
    + apply Z.mod_small. lia.
  - destruct (Z_lt_le_dec v 0) as [Hneg|Hpos].
    + rewrite <- (Z.mod_add v 1) by lia. rewrite Z.mod_small by lia. lia.
    + rewrite Z.mod_small in Hge by lia. lia.
Qed.

Lemma readUInt16BE_be_bytes (v : Z) (rest : list byte) :
  (0 <= v <= 65535)%Z ->
  Buffer.readUInt16BE (Buffer.be_bytes 2 v ++ rest) = v.
Proof.
  intros Hv. unfold Buffer.readUInt16BE.
  rewrite take_app_length' by (symmetry; apply length_be_bytes).
  rewrite read_unsigned_be_bytes.
  change (256 ^ Z.of_nat 2)%Z with 65536%Z.
  apply Z.mod_small. lia.
Qed.

End BufferFacts.

(** ** The cipher: the length of a ciphertext *)

Section CipherFacts.

Local Open Scope list_scope.

Lemma length_add_round_key (st rk : list N) : length (AES.add_round_key st rk) = 16%nat.
Proof. unfold AES.add_round_key. now rewrite length_map, length_seq. Qed.

Lemma length_encrypt_block (ws : list AES.word) (blk : list N) :
  length (AES.encrypt_block ws blk) = 16%nat.
Proof. unfold AES.encrypt_block. apply length_add_round_key. Qed.

Lemma length_cbc (ws : list AES.word) (n : nat) (prev data : list N) :
  length (AES.cbc ws n prev data) = (16 * n)%nat.
Proof.
  revert prev data. induction n as [|n IH]; intros prev data.
  - reflexivity.
  - cbn [AES.cbc]. rewrite length_app, length_encrypt_block, IH. lia.
Qed.

Lemma length_pkcs7 (pt : list N) :
  length (AES.pkcs7 pt) = (16 * (length pt / 16 + 1))%nat.
Proof.
  unfold AES.pkcs7. rewrite length_app, length_replicate.
  pose proof (Nat.div_mod_eq (length pt) 16) as Hdm.
  pose proof (Nat.mod_upper_bound (length pt) 16) as Hlt.
  lia.
Qed.

(** PKCS#7 always adds at least one byte: the ciphertext is the next
    multiple of sixteen strictly above the length of the plaintext. *)
Lemma length_cbc_encrypt (key iv pt : list byte) :
  length (AES.cbc_encrypt key iv pt) = (16 * (length pt / 16 + 1))%nat.
Proof.
  unfold AES.cbc_encrypt.
  rewrite length_map, length_cbc, length_pkcs7, length_map.
  f_equal. rewrite (Nat.mul_comm 16). apply Nat.div_mul. lia.
Qed.

End CipherFacts.

(** ** Strings and their bytes *)

Section StringFacts.

Local Open Scope list_scope.

Lemma list_ascii_app (s t : string) :
  list_ascii_of_string (s ++ t)%string = list_ascii_of_string s ++ list_ascii_of_string t.
Proof.
  induction s as [|c s IH]; [reflexivity|].
  change (String c s ++ t)%string with (String c (s ++ t)%string).
  cbn [list_ascii_of_string]. now rewrite IH.
Qed.

Lemma length_utf8_ascii_only (s : string) :
  ascii_only s = true -> length (utf8 s) = String.length s.
Proof.
  unfold ascii_only, utf8.
  induction s as [|c s IH]; cbn [list_ascii_of_string forallb flat_map String.length].
  - reflexivity.
  - intros H. apply andb_true_iff in H as [Hc Hs].
    rewrite length_app, IH by assumption.
    unfold utf8_unit. rewrite Hc. reflexivity.
Qed.

Lemma lower_alnum_ascii_only (s : string) :
  all_lower_alnum s = true -> ascii_only s = true.
Proof.
  unfold all_lower_alnum, ascii_only. rewrite !forallb_forall.
  intros H c Hc. specialize (H c Hc). unfold lower_alnum in H. cbv zeta in H.
  apply N.ltb_lt.
  apply orb_true_iff in H as [H|H]; apply andb_true_iff in H as [_ H];
    apply N.leb_le in H; lia.
Qed.

End StringFacts.

(** ** The random draws of the issuer *)

Lemma draw_bounds (d : draw) :
  (0 <= mant d < 2 ^ 53)%Z /\ (mant d < 2 ^ scale d)%Z /\ (0 <= scale d <= 1074)%Z.
Proof.
  pose proof (draw_range d) as H.
  apply andb_true_iff in H as [H H4]. apply andb_true_iff in H as [H H3].
  apply andb_true_iff in H as [H1 H2].
  apply Z.leb_le in H1, H4. apply Z.ltb_lt in H2, H3.
  repeat split; try assumption.
  destruct (Z_lt_le_dec (scale d) 0) as [Hneg|Hpos]; [|exact Hpos].
  rewrite Z.pow_neg_r in H3 by assumption. lia.
Qed.

(** Rounding moves a number by less than one part in 2^53. *)
Lemma round53_bounds (n : Z) :
  (0 <= n)%Z -> (0 <= round53 n <= n + n / 2 ^ 53)%Z.
Proof.
  intros Hn. unfold round53.
  assert (Hd : (0 <= n / 2 ^ 53)%Z) by (apply Z.div_pos; lia).
  destruct (Z.leb_spec (Z.log2 n - 52) 0) as [Hs|Hs]; [lia|].
  set (s := (Z.log2 n - 52)%Z) in *.
  assert (Hpos : (0 < n)%Z).
  { destruct (Z.eq_dec n 0%Z) as [Hz|]; [|lia]. subst n. unfold s in Hs. cbn in Hs. lia. }
  destruct (Z.log2_spec n Hpos) as [Hlo _].
  assert (H2s : (2 ^ s = 2 * 2 ^ (s - 1))%Z).
  { rewrite <- Z.pow_succ_r by lia. f_equal. lia. }
  assert (Hh : (0 < 2 ^ (s - 1))%Z) by (apply Z.pow_pos_nonneg; lia).
  assert (Hhalf : (2 ^ (s - 1) <= n / 2 ^ 53)%Z).
  { apply Z.div_le_lower_bound; [lia|].
    rewrite <- Z.pow_add_r by lia. replace (53 + (s - 1))%Z with (Z.log2 n) by lia.
    exact Hlo. }
  pose proof (Z.div_mod n (2 ^ s)) as Hdm.
  pose proof (Z.mod_pos_bound n (2 ^ s)) as Hr.
  assert (Hq : (0 <= n / 2 ^ s)%Z) by (apply Z.div_pos; lia).
  destruct ((2 ^ (s - 1) <? n mod 2 ^ s)%Z || _) eqn:Hup.
  - assert (Hge : (2 ^ (s - 1) <= n mod 2 ^ s)%Z).
    { apply orb_true_iff in Hup as [Hup|Hup].
      - apply Z.ltb_lt in Hup. lia.
      - apply andb_true_iff in Hup as [Hup _]. apply Z.eqb_eq in Hup. lia. }
    nia.
  - nia.
Qed.

(** A product with a draw stays below the factor, also after rounding. *)
Lemma round53_times_lt (c : Z) (d : draw) :
  (0 < c)%Z -> (0 <= round53 (c * mant d) < c * 2 ^ scale d)%Z.
Proof.
  intros Hc. destruct (draw_bounds d) as ((Hm0 & Hm53) & Hmk & Hk0 & _).
  assert (Hn : (0 <= c * mant d)%Z) by nia.
  pose proof (round53_bounds (c * mant d) Hn) as [Hlo Hhi].
  assert (Hdiv : (c * mant d / 2 ^ 53 < c)%Z).
  { apply Z.div_lt_upper_bound; [lia|]. nia. }
  split; [exact Hlo|]. nia.
Qed.

Lemma times_floor (c : Z) (d : draw) :
  Qfloor (times c d) = (round53 (c * mant d) / 2 ^ scale d)%Z.
Proof.
  destruct (draw_bounds d) as (_ & _ & Hk0 & _).
  unfold times, Qfloor. rewrite Z2Pos.id by (apply Z.pow_pos_nonneg; lia). reflexivity.
Qed.

(** The index into [chars] is one of 0, ..., 35. *)
Lemma pick_index_range (d : draw) :
  (0 <= Qfloor (times (Z.of_nat (String.length Token.chars)) d) < 36)%Z.
Proof.
  rewrite times_floor.
  change (Z.of_nat (String.length Token.chars)) with 36%Z.
  destruct (draw_bounds d) as (_ & _ & Hk0 & _).
  pose proof (round53_times_lt 36 d ltac:(lia)) as [Hlo Hhi].
  assert (Hp : (0 < 2 ^ scale d)%Z) by (apply Z.pow_pos_nonneg; lia).
  split.
  - apply Z.div_pos; lia.
  - apply Z.div_lt_upper_bound; lia.
Qed.

Lemma pick_char (d : draw) :
  exists c, Token.pick d = String c EmptyString /\ lower_alnum c = true.
Proof.
  pose proof (pick_index_range d) as Hi.
  unfold Token.pick.
  set (i := Qfloor _) in *.
  assert (Hall : forallb
            (fun k => match Token.char_at Token.chars (Z.of_nat k) with
                      | String c EmptyString => lower_alnum c
                      | _ => false
                      end) (seq 0 36) = true) by (vm_compute; reflexivity).
  rewrite forallb_forall in Hall.
  specialize (Hall (Z.to_nat i)). rewrite Z2Nat.id in Hall by lia.
  assert (Hin : In (Z.to_nat i) (seq 0 36)) by (apply in_seq; lia).
  specialize (Hall Hin).
  destruct (Token.char_at Token.chars i) as [|c [|c' t]]; try discriminate.
  exists c. split; [reflexivity|assumption].
Qed.

Lemma random_chars_run (n : nat) (w : world) :
  exists s, Token.random_chars n w = (Ok s, skip_draws n w) /\
            String.length s = n /\ all_lower_alnum s = true.
Proof.
  revert w. induction n as [|n IH]; intros w.
  - exists EmptyString. destruct w. repeat split.
  - cbn [Token.random_chars]. unfold bind at 1. unfold Math_random.
    destruct (IH (World (time_src w) (time_reads w) (rand_src w) (S (rand_reads w))))
      as (s & Hrun & Hlen & Hal).
    destruct (pick_char (rand_src w (rand_reads w))) as (c & Hc & Hcl).
    exists (String c s). unfold bind. rewrite Hrun. unfold ret, skip_draws. cbn [time_src time_reads rand_src rand_reads].
    rewrite Hc. cbn [String.append String.length].
    repeat split.
    + f_equal. f_equal. lia.
    + congruence.
    + unfold all_lower_alnum in *. cbn [list_ascii_of_string forallb]. now rewrite Hcl, Hal.
Qed.

(** [makeRandomIv] never fails: it consumes sixteen draws and yields
    sixteen characters of the alphabet, which take sixteen bytes. *)
Lemma makeRandomIv_run (w : world) :
  exists iv, Token.makeRandomIv w = (Ok iv, skip_draws 16 w) /\
             String.length iv = 16%nat /\ all_lower_alnum iv = true /\
             length (utf8 iv) = 16%nat.
Proof.
  destruct (random_chars_run 16 w) as (iv & Hrun & Hlen & Hal).
  exists iv. repeat split; try assumption.
  rewrite length_utf8_ascii_only by now apply lower_alnum_ascii_only.
  assumption.
Qed.

(** The nonce is never negative. *)
Lemma make_nonce_range (d : draw) : (0 <= Token.make_nonce d <= 2147483647)%Z.
Proof.
  unfold Token.make_nonce.
  change (-2147483648 + 4294967295)%Z with 2147483647%Z.
  destruct (draw_bounds d) as (_ & _ & Hk0 & _).
  pose proof (round53_times_lt 2147483647 d ltac:(lia)) as [Hlo Hhi].
  assert (Hp : (0 < 2 ^ scale d)%Z) by (apply Z.pow_pos_nonneg; lia).
  unfold Qceiling, times, Qopp, Qfloor. cbn [Qnum Qden].
  rewrite Z2Pos.id by assumption.
  assert (H1 : (- round53 (2147483647 * mant d) / 2 ^ scale d <= 0)%Z).
  { apply Z.div_le_upper_bound; lia. }
  assert (H2 : (- 2147483647 <= - round53 (2147483647 * mant d) / 2 ^ scale d)%Z).
  { apply Z.div_le_lower_bound; lia. }
  lia.
Qed.

(** ** Packing the envelope *)

Section PackFacts.

Local Open Scope list_scope.

Lemma writeBigInt64BE_ok (v : Z) (off : nat) (buf : list byte) :
  (- 2 ^ 63 <= v < 2 ^ 63)%Z -> (off + 8 <= length buf)%nat ->
  Buffer.writeBigInt64BE v off buf = Ok (Buffer.copy (Buffer.be_bytes 8 v) buf off).
Proof.
  intros Hv Hlen. unfold Buffer.writeBigInt64BE.
  destruct (Z.ltb_spec v (- 2 ^ 63)); [lia|].
  destruct (Z.leb_spec (2 ^ 63) v); [lia|].
  destruct (Nat.ltb_spec (length buf) (off + 8)); [lia|]. reflexivity.
Qed.

Lemma writeBigInt64BE_range (v : Z) (off : nat) (buf : list byte) :
  ~ (- 2 ^ 63 <= v < 2 ^ 63)%Z ->
  Buffer.writeBigInt64BE v off buf = Throw (RangeError "ERR_OUT_OF_RANGE").
Proof.
  intros Hv. unfold Buffer.writeBigInt64BE.
  destruct (Z.ltb_spec v (- 2 ^ 63)); [reflexivity|].
  destruct (Z.leb_spec (2 ^ 63) v); [reflexivity|]. lia.
Qed.

Lemma writeUInt16BE_ok (v : Z) (off : nat) (buf : list byte) :
  (0 <= v <= 65535)%Z -> (off + 2 <= length buf)%nat ->
  Buffer.writeUInt16BE v off buf = Ok (Buffer.copy (Buffer.be_bytes 2 v) buf off).
Proof.
  intros Hv Hlen. unfold Buffer.writeUInt16BE.
  destruct (Z.ltb_spec v 0); [lia|].
  destruct (Z.ltb_spec 65535 v); [lia|].
  destruct (Nat.ltb_spec (length buf) (off + 2)); [lia|]. reflexivity.
Qed.

Lemma writeUInt16BE_range (v : Z) (off : nat) (buf : list byte) :
  (65535 < v)%Z ->
  Buffer.writeUInt16BE v off buf = Throw (RangeError "ERR_OUT_OF_RANGE").
Proof.
  intros Hv. unfold Buffer.writeUInt16BE.
  destruct (Z.ltb_spec v 0); [reflexivity|].
  destruct (Z.ltb_spec 65535 v); [reflexivity|lia].
Qed.

Lemma alloc_segments (a b : nat) :
  Buffer.alloc (8 + 2 + a + 2 + b) =
  Buffer.alloc 8 ++ Buffer.alloc 2 ++ Buffer.alloc a ++ Buffer.alloc 2 ++ Buffer.alloc b.
Proof. unfold Buffer.alloc. now rewrite <- !replicate_add, !Nat.add_assoc. Qed.

Lemma length_alloc (n : nat) : length (Buffer.alloc n) = n.
Proof. apply length_replicate. Qed.

(** The five writes of the issuer fill the buffer with the envelope. *)
Lemma pack_ok (expireTime : Z) (iv : string) (cipher : list byte) :
  (- 2 ^ 63 <= expireTime < 2 ^ 63)%Z ->
  (Z.of_nat (length (utf8 iv)) <= 65535)%Z -> (Z.of_nat (length cipher) <= 65535)%Z ->
  Token.pack expireTime iv cipher =
  Ok ("04" ++ Base64.encode (envelope expireTime (utf8 iv) cipher))%string.
Proof.
  intros He Hiv Hc. unfold Token.pack. cbv zeta.
  set (A := Buffer.be_bytes 8 expireTime).
  set (B := Buffer.be_bytes 2 (Z.of_nat (length (utf8 iv)))).
  set (D := Buffer.be_bytes 2 (Z.of_nat (length cipher))).
  assert (HA : length A = 8%nat) by apply length_be_bytes.
  assert (HB : length B = 2%nat) by apply length_be_bytes.
  assert (HD : length D = 2%nat) by apply length_be_bytes.
  rewrite writeBigInt64BE_ok by (rewrite ?length_alloc; lia).
  fold A. rewrite alloc_segments.
  rewrite buffer_copy_head by (rewrite ?length_alloc; lia).
  cbn [Nat.add].
  rewrite writeUInt16BE_ok by (rewrite ?length_app, ?length_alloc; lia).
  fold B.
  rewrite (buffer_copy_app A (Buffer.alloc 2)) by (rewrite ?length_alloc; lia).
  rewrite (app_assoc A B).
  rewrite (buffer_copy_app (A ++ B) (Buffer.alloc (length (utf8 iv))))
    by (rewrite ?length_app, ?length_alloc; lia).
  rewrite (app_assoc (A ++ B) (utf8 iv)).
  rewrite writeUInt16BE_ok by (rewrite ?length_app, ?length_alloc; lia).
  fold D.
  rewrite (buffer_copy_app ((A ++ B) ++ utf8 iv) (Buffer.alloc 2))
    by (rewrite ?length_app, ?length_alloc; lia).
  rewrite (app_assoc ((A ++ B) ++ utf8 iv) D).
  rewrite <- (app_nil_r (Buffer.alloc (length cipher))).
  rewrite (buffer_copy_app (((A ++ B) ++ utf8 iv) ++ D) (Buffer.alloc (length cipher)))
    by (rewrite ?length_app, ?length_alloc; lia).
  rewrite app_nil_r. unfold envelope. fold A B D.
  now rewrite <- !app_assoc.
Qed.

Lemma pack_expire_out_of_range (expireTime : Z) (iv : string) (cipher : list byte) :
  ~ (- 2 ^ 63 <= expireTime < 2 ^ 63)%Z ->
  Token.pack expireTime iv cipher = Throw (RangeError "ERR_OUT_OF_RANGE").
Proof. intros He. unfold Token.pack. cbv zeta. now rewrite writeBigInt64BE_range. Qed.

Lemma pack_cipher_too_long (expireTime : Z) (iv : string) (cipher : list byte) :
  (- 2 ^ 63 <= expireTime < 2 ^ 63)%Z ->
  (Z.of_nat (length (utf8 iv)) <= 65535)%Z -> (65535 < Z.of_nat (length cipher))%Z ->
  Token.pack expireTime iv cipher = Throw (RangeError "ERR_OUT_OF_RANGE").
Proof.
  intros He Hiv Hc. unfold Token.pack. cbv zeta.
  rewrite writeBigInt64BE_ok by (rewrite ?length_alloc; lia).
  rewrite writeUInt16BE_ok.
  - now rewrite writeUInt16BE_range by lia.
  - lia.
  - unfold Buffer.copy. rewrite !length_app, length_take, length_drop, length_take.
    rewrite length_alloc, length_be_bytes. lia.
Qed.

End PackFacts.

(** ** The issuer, step by step *)

Section IssuerFacts.

Lemma guard_appId (v : value) :
  negb (truthy v) || negb (String.eqb (typeof v) "number") = negb (valid_appId v).
Proof. destruct v as [| |[|]|[|z]|[|c s]]; reflexivity || (cbn; now rewrite orb_false_r). Qed.

Lemma guard_userId (v : value) :
  negb (truthy v) || negb (String.eqb (typeof v) "string") = negb (valid_userId v).
Proof. destruct v as [| |[|]|[|z]|[|c s]]; try reflexivity. cbn. now destruct (z =? 0)%Z. Qed.

Lemma guard_secret (v : value) :
  negb (truthy v) || negb (strict_eq_num (length_of v) 32) = negb (valid_secret v).
Proof.
  destruct v as [| |[|]|[|z]|[|c s]]; try reflexivity.
  - cbn. now destruct (z =? 0)%Z.
  - cbn [truthy negb orb length_of strict_eq_num valid_secret].
    f_equal. destruct (Nat.eqb_spec (String.length (String c s)) 32) as [E|E].
    + rewrite E. reflexivity.
    + apply Z.eqb_neq. lia.
Qed.

(** A call that fails a guard throws at once and leaves the world as it
    found it. *)
Lemma generateToken04_guarded (appId userId secret : value) (lifetime : Z)
    (payload : value) (w : world) :
  valid_appId appId && valid_userId userId && valid_secret secret = false ->
  Token.generateToken04 appId userId secret lifetime payload w =
  (Throw (Error (if negb (valid_appId appId) then "appId must be a number"
                 else if negb (valid_userId userId) then "userId must be a string"
                 else "serverSecret must be 32 chars")), w).
Proof.
  intros H. unfold Token.generateToken04.
  rewrite guard_appId, guard_userId, guard_secret.
  destruct (valid_appId appId); [|reflexivity].
  destruct (valid_userId userId); [|reflexivity].
  destruct (valid_secret secret); [discriminate|reflexivity].
Qed.

Lemma aesEncrypt_string (plainText key iv : string) :
  length (utf8 iv) = 16%nat ->
  Token.aesEncrypt plainText (VStr key) iv =
  if (length (utf8 key) =? 32)%nat
  then Ok (AES.cbc_encrypt (utf8 key) (utf8 iv) (utf8 plainText))
  else Throw (RangeError "Invalid key length").
Proof.
  intros Hiv. unfold Token.aesEncrypt, Buffer_from, AES.createCipheriv.
  rewrite Hiv. cbn [Nat.eqb negb].
  now destruct (length (utf8 key) =? 32)%nat.
Qed.

(** A call that passes the guards reads the clock once, draws the nonce,
    draws the vector, encrypts and packs. *)
Lemma generateToken04_run (appId userId secret : value) (lifetime : Z)
    (payload : value) (w : world) :
  valid_appId appId && valid_userId userId && valid_secret secret = true ->
  exists iv,
    Token.makeRandomIv (skip_draws 1 (skip_clock w)) = (Ok iv, after_issue w) /\
    String.length iv = 16%nat /\ all_lower_alnum iv = true /\
    length (utf8 iv) = 16%nat /\
    Token.generateToken04 appId userId secret lifetime payload w =
    (match Token.aesEncrypt (plainText_of appId userId lifetime payload w) secret iv with
     | Throw e => Throw e
     | Ok cipher => Token.pack (createTime_of w + lifetime) iv cipher
     end, after_issue w).
Proof.
  intros H. apply andb_true_iff in H as [H Hs]. apply andb_true_iff in H as [Ha Hu].
  destruct (makeRandomIv_run (skip_draws 1 (skip_clock w))) as (iv & Hrun & Hlen & Hal & Hbytes).
  exists iv. repeat split; try assumption.
  unfold Token.generateToken04.
  rewrite guard_appId, guard_userId, guard_secret, Ha, Hu, Hs. cbn [negb].
  unfold bind at 1. unfold Date_now.
  unfold bind at 1. unfold Math_random. cbn [time_src time_reads rand_src rand_reads].
  unfold bind at 1.
  change (World (time_src w) (S (time_reads w)) (rand_src w) (S (rand_reads w)))
    with (skip_draws 1 (skip_clock w)).
  rewrite Hrun. unfold bind, lift.
  unfold plainText_of, nonce_of, createTime_of, default_payload.
  destruct (Token.aesEncrypt _ secret iv); reflexivity.
Qed.

End IssuerFacts.

(** ** The serialized claims *)

Section TextFacts.

Lemma string_app_assoc (s t u : string) : ((s ++ t) ++ u = s ++ t ++ u)%string.
Proof.
  induction s as [|c s IH]; [reflexivity|].
  change (String c (((s ++ t) ++ u))%string = String c (s ++ t ++ u)%string).
  now rewrite IH.
Qed.

(** The payload member, [payload] or else the empty string, is never
    [undefined], so it is never left out of the text. *)
Lemma payload_member (payload : value) :
  exists text,
    stringify_value
      (if truthy (default_payload payload) then default_payload payload
       else VStr EmptyString) = Some text.
Proof.
  destruct payload as [| |[|]|[|z]|[|c s]]; cbn; try (eexists; reflexivity).
  destruct (z =? 0)%Z; eexists; reflexivity.
Qed.

(** [JSON.stringify] writes the six members in the order of the object
    literal. *)
Lemma plainText_of_claims_text (a : Z) (u : string) (lifetime : Z) (payload : value)
    (w : world) (text : string) :
  stringify_value
    (if truthy (default_payload payload) then default_payload payload
     else VStr EmptyString) = Some text ->
  plainText_of (VNum (Int a)) (VStr u) lifetime payload w =
  claims_text (Z_to_string a) (quote u) (Z_to_string (nonce_of w))
    (Z_to_string (createTime_of w)) (Z_to_string (createTime_of w + lifetime)) text.
Proof.
  intros Hp. unfold plainText_of, JSON_stringify, Token.tokenInfo.
  cbn [stringify_members stringify_value]. rewrite Hp. cbn [join].
  unfold claims_text. now rewrite !string_app_assoc.
Qed.

End TextFacts.

(** ** When the issuer returns, and what *)

Section IssuerOutcome.

Lemma valid_secret_string (secret : value) :
  valid_secret secret = true ->
  exists k, secret = VStr k /\ String.length k = 32%nat.
Proof.
  destruct secret as [| |b|n|k]; try discriminate.
  intros H. exists k. split; [reflexivity|]. now apply Nat.eqb_eq.
Qed.

Lemma cipher_fits (key iv pt : list byte) :
  (Z.of_nat (length (AES.cbc_encrypt key iv pt)) <= 65535)%Z <->
  (Z.of_nat (length pt) < 65520)%Z.
Proof.
  rewrite length_cbc_encrypt.
  pose proof (Nat.div_mod_eq (length pt) 16) as Hdm.
  pose proof (Nat.mod_upper_bound (length pt) 16) as Hlt.
  lia.
Qed.

(** The outcome of a call that passes the guards, case by case. *)
Lemma generateToken04_outcome (appId userId : value) (k : string) (lifetime : Z)
    (payload : value) (w : world) :
  valid_appId appId && valid_userId userId && valid_secret (VStr k) = true ->
  exists iv,
    Token.makeRandomIv (skip_draws 1 (skip_clock w)) = (Ok iv, after_issue w) /\
    String.length iv = 16%nat /\ all_lower_alnum iv = true /\
    length (utf8 iv) = 16%nat /\
    Token.generateToken04 appId userId (VStr k) lifetime payload w =
    (if negb (length (utf8 k) =? 32)%nat then Throw (RangeError "Invalid key length")
     else if negb ((- 2 ^ 63 <=? createTime_of w + lifetime)%Z
                   && (createTime_of w + lifetime <? 2 ^ 63)%Z)
     then Throw (RangeError "ERR_OUT_OF_RANGE")
     else if negb (Z.of_nat (length (utf8 (plainText_of appId userId lifetime payload w)))
                   <? 65520)%Z
     then Throw (RangeError "ERR_OUT_OF_RANGE")
     else Ok ("04" ++ Base64.encode
                (envelope (createTime_of w + lifetime) (utf8 iv)
                   (AES.cbc_encrypt (utf8 k) (utf8 iv)
                      (utf8 (plainText_of appId userId lifetime payload w)))))%string,
     after_issue w).
Proof.
  intros Hv.
  destruct (generateToken04_run appId userId (VStr k) lifetime payload w Hv)
    as (iv & Hrun & Hlen & Hal & Hbytes & Heq).
  exists iv. repeat split; try assumption.
  rewrite Heq. f_equal.
  rewrite aesEncrypt_string by assumption.
  destruct (length (utf8 k) =? 32)%nat; [cbn [negb]|reflexivity].
  destruct (Z.leb_spec (- 2 ^ 63) (createTime_of w + lifetime)) as [Hlo|Hlo];
    [|now rewrite pack_expire_out_of_range by lia].
  destruct (Z.ltb_spec (createTime_of w + lifetime) (2 ^ 63)) as [Hhi|Hhi];
    [|now rewrite pack_expire_out_of_range by lia].
  cbn [andb negb].
  destruct (Z.ltb_spec (Z.of_nat (length (utf8 (plainText_of appId userId lifetime payload w))))
              65520) as [Hfit|Hfit]; cbn [negb].
  - apply pack_ok; [lia|lia|]. now apply cipher_fits.
  - apply pack_cipher_too_long; [lia|lia|].
    pose proof (cipher_fits (utf8 k) (utf8 iv)
                  (utf8 (plainText_of appId userId lifetime payload w))) as Hc.
    lia.
Qed.

End IssuerOutcome.

(** Whatever comes back as a token went through all of the steps. *)
Lemma generateToken04_Ok_inv (appId userId secret : value) (lifetime : Z)
    (payload : value) (w : world) (tok : string) (w' : world) :
  Token.generateToken04 appId userId secret lifetime payload w = (Ok tok, w') ->
  exists (a : Z) (u k iv : string),
    appId = VNum (Int a) /\ a <> 0%Z /\
    userId = VStr u /\ u <> EmptyString /\
    secret = VStr k /\ String.length k = 32%nat /\ length (utf8 k) = 32%nat /\
    w' = after_issue w /\
    Token.makeRandomIv (skip_draws 1 (skip_clock w)) = (Ok iv, w') /\
    String.length iv = 16%nat /\ all_lower_alnum iv = true /\
    (- 2 ^ 63 <= createTime_of w + lifetime < 2 ^ 63)%Z /\
    (Z.of_nat (length (utf8 (plainText_of appId userId lifetime payload w))) < 65520)%Z /\
    tok = ("04" ++ Base64.encode
             (envelope (createTime_of w + lifetime) (utf8 iv)
                (AES.cbc_encrypt (utf8 k) (utf8 iv)
                   (utf8 (plainText_of appId userId lifetime payload w)))))%string.
Proof.
  intros Hrun.
  destruct (valid_appId appId && valid_userId userId && valid_secret secret) eqn:Hv.
  2:{ rewrite generateToken04_guarded in Hrun by assumption. discriminate. }
  pose proof Hv as Hv'.
  apply andb_true_iff in Hv' as [Hv' Hs]. apply andb_true_iff in Hv' as [Ha Hu].
  destruct (valid_secret_string secret Hs) as (k & -> & Hk).
  destruct appId as [| |b|[|a]|s]; try discriminate Ha.
  destruct userId as [| |b|n|[|c u]]; try discriminate Hu.
  destruct (generateToken04_outcome _ _ _ lifetime payload w Hv)
    as (iv & Hiv & Hlen & Hal & Hbytes & Heq).
  rewrite Heq in Hrun.
  destruct (Nat.eqb_spec (length (utf8 k)) 32) as [Hkb|Hkb]; [|discriminate Hrun].
  cbn [negb] in Hrun.
  destruct (Z.leb_spec (- 2 ^ 63) (createTime_of w + lifetime)) as [Hlo|Hlo];
    [|discriminate Hrun].
  destruct (Z.ltb_spec (createTime_of w + lifetime) (2 ^ 63)) as [Hhi|Hhi];
    [|discriminate Hrun].
  cbn [andb negb] in Hrun.
  destruct (Z.ltb_spec
              (Z.of_nat (length (utf8 (plainText_of (VNum (Int a)) (VStr (String c u))
                 lifetime payload w)))) 65520) as [Hfit|Hfit]; [|discriminate Hrun].
  cbn [negb] in Hrun. injection Hrun as Htok Hw.
  exists a, (String c u), k, iv.
  cbn [valid_appId] in Ha.
  assert (Hne : a <> 0%Z) by (destruct (Z.eqb_spec a 0); [discriminate Ha|assumption]).
  split; [reflexivity|]. split; [exact Hne|]. split; [reflexivity|].
  split; [discriminate|]. split; [reflexivity|]. split; [exact Hk|].
  split; [exact Hkb|]. split; [now symmetry|]. split; [now rewrite <- Hw|].
  split; [exact Hlen|]. split; [exact Hal|]. split; [lia|]. split; [exact Hfit|].
  now symmetry.
Qed.


(** * The claims about the issuer *)







(** C5 (the code departs from it).  Whatever [Math.random()] returns, the
    nonce lies between 0 and 2147483647: no negative value of the signed
    32-bit range is ever drawn. *)
Theorem nonce_never_negative (d : draw) :
  (0 <= Token.make_nonce d <= 2147483647)%Z /\ Token.make_nonce d <> (-1)%Z.
Proof. pose proof (make_nonce_range d). lia. Qed.

(** C8.  The text encrypted into the cipher bytes of a token is the
    serialized claims with the members in the order appId, userId, nonce,
    createdAt, expiresAt, payload. *)
Theorem issueToken_claims_order (appId userId secret : value) (lifetime : Z)
    (payload : value) (w : world) (tok : string) (w' : world) :
  Token.generateToken04 appId userId secret lifetime payload w = (Ok tok, w') ->
  exists (a : Z) (u k iv payload_text text : string),
    appId = VNum (Int a) /\ userId = VStr u /\ secret = VStr k /\
    stringify_value
      (if truthy (default_payload payload) then default_payload payload
       else VStr EmptyString) = Some payload_text /\
    text = claims_text (Z_to_string a) (quote u) (Z_to_string (nonce_of w))
             (Z_to_string (createTime_of w)) (Z_to_string (createTime_of w + lifetime))
             payload_text /\
    JSON_stringify
      (Token.tokenInfo appId userId (nonce_of w) (createTime_of w)
         (createTime_of w + lifetime) (default_payload payload)) = text /\
    tok = ("04" ++ Base64.encode
             (envelope (createTime_of w + lifetime) (utf8 iv)
                (AES.cbc_encrypt (utf8 k) (utf8 iv) (utf8 text))))%string.
Proof.
  intros Hrun.
  destruct (generateToken04_Ok_inv _ _ _ _ _ _ _ _ Hrun)
    as (a & u & k & iv & -> & _ & -> & _ & -> & _ & _ & _ & _ & _ & _ & _ & _ & Htok).
  destruct (payload_member payload) as (ptext & Hp).
  pose proof (plainText_of_claims_text a u lifetime payload w ptext Hp) as Htext.
  exists a, u, k, iv, ptext.
  eexists. split; [reflexivity|]. split; [reflexivity|]. split; [reflexivity|].
  split; [exact Hp|]. split; [reflexivity|]. split; [exact Htext|].
  rewrite <- Htext. exact Htok.
Qed.

Lemma issueToken_claims_order_witness :
  exists (a : Z) (u k iv payload_text text : string),
    VNum (Int 123456) = VNum (Int a) /\ VStr sample_userId = VStr u /\
    VStr sample_secret = VStr k /\
    stringify_value
      (if truthy (default_payload VUndefined) then default_payload VUndefined
       else VStr EmptyString) = Some payload_text /\
    text = claims_text (Z_to_string a) (quote u) (Z_to_string (nonce_of sample_world))
             (Z_to_string (createTime_of sample_world))
             (Z_to_string (createTime_of sample_world + 3600)) payload_text /\
    JSON_stringify
      (Token.tokenInfo (VNum (Int 123456)) (VStr sample_userId) (nonce_of sample_world)
         (createTime_of sample_world) (createTime_of sample_world + 3600)
         (default_payload VUndefined)) = text /\
    sample_token = ("04" ++ Base64.encode
             (envelope (createTime_of sample_world + 3600) (utf8 iv)
                (AES.cbc_encrypt (utf8 k) (utf8 iv) (utf8 text))))%string.
Proof.
  apply (issueToken_claims_order (VNum (Int 123456)) (VStr sample_userId)
           (VStr sample_secret) 3600 VUndefined sample_world sample_token
           (after_issue sample_world)).
  vm_compute. reflexivity.
Defined.



(** * The room registry *)

(** ** The map *)

Section MapFacts.

Context {V : Type}.
Implicit Types (m : Map.t V) (k : string) (v : V).

Lemma map_get_set_eq m k v : Map.get k (Map.set k v m) = Some v.
Proof.
  induction m as [|[k' v'] m IH]; cbn [Map.set Map.get].
  - now rewrite String.eqb_refl.
  - destruct (String.eqb k k') eqn:E; cbn [Map.get]; rewrite ?String.eqb_refl, ?E; auto.
Qed.

Lemma map_get_set_ne m k k' v : k' <> k -> Map.get k' (Map.set k v m) = Map.get k' m.
Proof.
  intros Hne. induction m as [|[k0 v0] m IH]; cbn [Map.set Map.get].
  - apply String.eqb_neq in Hne. now rewrite Hne.
  - destruct (String.eqb_spec k k0) as [->|Hk]; cbn [Map.get].
    + apply String.eqb_neq in Hne. now rewrite Hne.
    + now rewrite IH.
Qed.

Lemma map_get_delete_eq m k : Map.get k (Map.delete k m) = None.
Proof.
  induction m as [|[k' v'] m IH]; [reflexivity|]. cbn [Map.delete].
  destruct (String.eqb k k') eqn:E; [exact IH|]. cbn [Map.get]. now rewrite E.
Qed.

Lemma map_in_delete m k k' v :
  In (k', v) (Map.delete k m) <-> In (k', v) m /\ k' <> k.
Proof.
  induction m as [|[k0 v0] m IH]; cbn [Map.delete In]; [tauto|].
  destruct (String.eqb_spec k k0) as [->|Hk].
  - rewrite IH. split.
    + intros [H1 H2]. auto.
    + intros [[H1|H1] H2]; [|auto]. injection H1 as -> _. congruence.
  - cbn [In]. rewrite IH. split.
    + intros [H|[H1 H2]]; [|auto]. injection H as <- <-. auto.
    + intros [[H|H] H2]; auto.
Qed.

Lemma map_get_in m k v : Map.get k m = Some v -> In (k, v) m.
Proof.
  induction m as [|[k' v'] m IH]; cbn [Map.get In]; [discriminate|].
  destruct (String.eqb_spec k k') as [->|Hk].
  - intros H. injection H as ->. now left.
  - auto.
Qed.

Lemma has_key_get m k : has_key k m = false <-> Map.get k m = None.
Proof.
  unfold has_key.
  induction m as [|[k' v'] m IH]; cbn [existsb Map.get fst]; [tauto|].
  destruct (String.eqb k k'); cbn [orb]; [split; discriminate|exact IH].
Qed.

Lemma has_key_set m k k' v :
  has_key k (Map.set k' v m) = has_key k m || String.eqb k k'.
Proof.
  unfold has_key.
  induction m as [|[k0 v0] m IH]; cbn [Map.set existsb fst].
  - now rewrite orb_false_r.
  - destruct (String.eqb_spec k' k0) as [->|Hne]; cbn [existsb fst].
    + destruct (String.eqb k k0), (existsb _ m); reflexivity.
    + rewrite IH. now rewrite orb_assoc.
Qed.

Lemma has_key_delete m k k' :
  has_key k (Map.delete k' m) = has_key k m && negb (String.eqb k k').
Proof.
  unfold has_key.
  induction m as [|[k0 v0] m IH]; cbn [Map.delete existsb fst]; [reflexivity|].
  destruct (String.eqb_spec k' k0) as [->|Hne]; cbn [existsb fst].
  - rewrite IH. destruct (String.eqb k k0), (existsb _ m); reflexivity.
  - rewrite IH. destruct (String.eqb_spec k k0) as [->|Hne'].
    + apply String.eqb_neq in Hne. rewrite String.eqb_sym in Hne. now rewrite Hne.
    + reflexivity.
Qed.

Lemma unique_keys_set m k v : unique_keys m = true -> unique_keys (Map.set k v m) = true.
Proof.
  induction m as [|[k0 v0] m IH]; cbn [Map.set unique_keys]; [reflexivity|].
  intros H. apply andb_true_iff in H as [Hk Hm].
  destruct (String.eqb_spec k k0) as [->|Hne]; cbn [unique_keys].
  - now rewrite Hk, Hm.
  - rewrite has_key_set, IH by assumption.
    apply String.eqb_neq in Hne. rewrite String.eqb_sym in Hne.
    rewrite Hne, orb_false_r. now rewrite Hk.
Qed.

Lemma unique_keys_delete m k : unique_keys m = true -> unique_keys (Map.delete k m) = true.
Proof.
  induction m as [|[k0 v0] m IH]; cbn [Map.delete unique_keys]; [reflexivity|].
  intros H. apply andb_true_iff in H as [Hk Hm].
  destruct (String.eqb k k0); [now apply IH|]. cbn [unique_keys].
  rewrite has_key_delete, IH by assumption.
  apply negb_true_iff in Hk. now rewrite Hk.
Qed.

Lemma has_key_in m k v : In (k, v) m -> has_key k m = true.
Proof.
  unfold has_key. intros Hin. apply existsb_exists. exists (k, v).
  split; [assumption|]. apply String.eqb_refl.
Qed.

Lemma map_in_get m k v : unique_keys m = true -> In (k, v) m -> Map.get k m = Some v.
Proof.
  induction m as [|[k0 v0] m IH]; cbn [unique_keys Map.get In]; [tauto|].
  intros H Hin. apply andb_true_iff in H as [Hk Hm].
  destruct Hin as [Heq|Hin].
  - injection Heq as -> ->. now rewrite String.eqb_refl.
  - destruct (String.eqb_spec k k0) as [->|Hne]; [|now apply IH].
    apply has_key_in in Hin. rewrite Hin in Hk. discriminate Hk.
Qed.

Lemma forallb_map_set (P : string * V -> bool) m k v :
  forallb P m = true -> P (k, v) = true -> forallb P (Map.set k v m) = true.
Proof.
  intros Hm Hkv.
  induction m as [|[k0 v0] m IH]; cbn [Map.set forallb]; [now rewrite Hkv|].
  cbn [forallb] in Hm. apply andb_true_iff in Hm as [H0 Hm].
  destruct (String.eqb k k0); cbn [forallb].
  - now rewrite Hkv, Hm.
  - now rewrite H0, IH.
Qed.

Lemma forallb_map_delete (P : string * V -> bool) m k :
  forallb P m = true -> forallb P (Map.delete k m) = true.
Proof.
  induction m as [|[k0 v0] m IH]; cbn [Map.delete forallb]; [reflexivity|].
  intros Hm. apply andb_true_iff in Hm as [H0 Hm].
  destruct (String.eqb k k0); [now apply IH|]. cbn [forallb]. now rewrite H0, IH.
Qed.

Lemma map_values_in m v : In v (Map.values m) <-> exists k, In (k, v) m.
Proof.
  unfold Map.values. rewrite in_map_iff. split.
  - intros ([k v'] & Hv & Hin). cbn in Hv. subst v'. now exists k.
  - intros (k & Hin). now exists (k, v).
Qed.


End MapFacts.

(** ** The handlers *)

Section RegistryClaims.

Import Rooms.

Variable toString36 : draw -> string.

(** An entitled caller with a title gets a room: the identifier comes
    from the clock and one draw, and the room is stored under it. *)
Lemma post_create_room_run (st : server) (user : User.t) (title type : value) (w : world) :
  premium_required user = false -> truthy title = true ->
  exists room,
    post_create_room toString36 st user title type w =
    (mk_response 200 (BRoom room),
     mk_server (Map.set (Room.id room) room (activeRooms st))
               (timers st ++ [((4 * 60 * 60 * 1000)%Z, Room.id room)])%list,
     skip_clock (skip_draws 1 (skip_clock w))) /\
    Room.id room =
      ("room_" ++ Z_to_string (time_src w (time_reads w)) ++ "_" ++
       substring 2 5 (toString36 (rand_src w (rand_reads w))))%string /\
    Room.title room = title /\
    Room.type room = (match type with VUndefined => VStr "audio" | _ => type end) /\
    Room.hostId room = User._id user /\
    Room.hostName room = User.name user /\
    Room.organization room = User.organization user /\
    Room.participants room = 0%Z /\
    Room.live room = true.
Proof.
  intros Hp Ht. unfold post_create_room. rewrite Hp, Ht. cbn [negb].
  eexists. split; [reflexivity|]. repeat split.
Qed.

Lemma registry_ok_entry (st : server) (k : string) (r : Room.t) :
  registry_ok st = true -> In (k, r) (activeRooms st) ->
  Room.id r = k /\ Room.live r = true.
Proof.
  unfold registry_ok. intros H Hin. apply andb_true_iff in H as [Hall _].
  rewrite forallb_forall in Hall. specialize (Hall (k, r) Hin).
  unfold entry_ok in Hall. cbn [fst snd] in Hall.
  apply andb_true_iff in Hall as [Hid Hlive]. now apply String.eqb_eq in Hid.
Qed.

Lemma registry_ok_set (st : server) (room : Room.t) (ts : list (Z * string)) :
  registry_ok st = true -> Room.live room = true ->
  registry_ok (mk_server (Map.set (Room.id room) room (activeRooms st)) ts) = true.
Proof.
  unfold registry_ok. cbn [activeRooms]. intros H Hlive.
  apply andb_true_iff in H as [Hall Huniq].
  rewrite forallb_map_set, unique_keys_set; try assumption; [reflexivity|].
  unfold entry_ok. cbn [fst snd]. now rewrite String.eqb_refl, Hlive.
Qed.

Lemma registry_ok_delete (st : server) (k : string) (ts : list (Z * string)) :
  registry_ok st = true ->
  registry_ok (mk_server (Map.delete k (activeRooms st)) ts) = true.
Proof.
  unfold registry_ok. cbn [activeRooms]. intros H.
  apply andb_true_iff in H as [Hall Huniq].
  now rewrite forallb_map_delete, unique_keys_delete.
Qed.

(** Every operation keeps the invariant of the registry. *)
Lemma post_create_room_ok (st : server) (user : User.t) (title type : value) (w : world) :
  registry_ok st = true ->
  registry_ok (snd (fst (post_create_room toString36 st user title type w))) = true.
Proof.
  intros Hok.
  destruct (premium_required user) eqn:Hp.
  { unfold post_create_room. now rewrite Hp. }
  destruct (truthy title) eqn:Ht.
  2:{ unfold post_create_room. now rewrite Hp, Ht. }
  destruct (post_create_room_run st user title type w Hp Ht)
    as (room & Heq & _ & _ & _ & _ & _ & _ & _ & Hlive).
  rewrite Heq. cbn [fst snd]. now apply registry_ok_set.
Qed.

Lemma delete_close_ok (st : server) (user : User.t) (roomId : string) :
  registry_ok st = true -> registry_ok (snd (delete_close st user roomId)) = true.
Proof.
  intros Hok. unfold delete_close.
  destruct (Map.get roomId (activeRooms st)) as [room|]; [|exact Hok].
  destruct (negb _); [exact Hok|]. cbn [snd]. now apply registry_ok_delete.
Qed.

Lemma timer_fires_ok (st : server) (i : nat) :
  registry_ok st = true -> registry_ok (timer_fires st i) = true.
Proof.
  intros Hok. unfold timer_fires.
  destruct (nth_error (timers st) i) as [[delay roomId]|]; [|exact Hok].
  now apply registry_ok_delete.
Qed.

Lemma reachable_registry_ok (st : server) :
  reachable toString36 st -> registry_ok st = true.
Proof.
  induction 1 as [|st user title type w _ IH|st user roomId _ IH|st i _ IH].
  - reflexivity.
  - now apply post_create_room_ok.
  - now apply delete_close_ok.
  - now apply timer_fires_ok.
Qed.

(** When its timer fires, a room is gone from the registry. *)
Lemma timer_fires_evicts (st : server) (i : nat) (delay : Z) (roomId : string) :
  nth_error (timers st) i = Some (delay, roomId) ->
  Map.get roomId (activeRooms (timer_fires st i)) = None.
Proof.
  intros H. unfold timer_fires. rewrite H. cbn [activeRooms]. apply map_get_delete_eq.
Qed.

Lemma listed_spec (st : server) (caller : User.t) (r : Room.t) :
  In r (listed st caller) <->
  In r (Map.values (activeRooms st)) /\
  Room.organization r = User.organization caller /\ Room.live r = true.
Proof.
  unfold listed, get_list. cbn [json].
  rewrite filter_In, andb_true_iff, String.eqb_eq. tauto.
Qed.

(** C3.  Closing a room, in a state that satisfies the invariant of the
    registry (as every reachable state does): when no live room has the
    id the answer is 404 Not Found; a caller other than the host gets
    403 Forbidden, the state is as before and the room is still stored
    and still listed to its organization; the host gets the room removed
    at once, all other entries staying, no listing shows it any more,
    and closing the same id again gives 404. *)
Theorem close_room_outcomes (st : server) (user : User.t) (roomId : string) :
  registry_ok st = true ->
  ((forall room, In room (Map.values (activeRooms st)) ->
                 Room.live room = true -> Room.id room <> roomId) ->
   delete_close st user roomId = (mk_response 404 (BError "Room not found" None), st)) /\
  (forall room,
     Map.get roomId (activeRooms st) = Some room ->
     Room.hostId room <> User._id user ->
     exists st',
       delete_close st user roomId =
       (mk_response 403 (BError "Only the host can close the room" None), st') /\
       st' = st /\
       Map.get roomId (activeRooms st') = Some room /\
       forall caller,
         User.organization caller = Room.organization room -> In room (listed st' caller)) /\
  (forall room,
     Map.get roomId (activeRooms st) = Some room ->
     Room.hostId room = User._id user ->
     exists st',
       delete_close st user roomId = (mk_response 200 (BMessage "Room closed"), st') /\
       Map.get roomId (activeRooms st') = None /\
       (forall k r, In (k, r) (activeRooms st') <-> In (k, r) (activeRooms st) /\ k <> roomId) /\
       (forall caller r, In r (listed st' caller) -> Room.id r <> roomId) /\
       forall caller,
         delete_close st' caller roomId =
         (mk_response 404 (BError "Room not found" None), st')).
Proof.
  intros Hok. split; [|split].
  - intros Hnone. unfold delete_close.
    destruct (Map.get roomId (activeRooms st)) as [room|] eqn:Hget; [|reflexivity].
    apply map_get_in in Hget.
    destruct (registry_ok_entry st roomId room Hok Hget) as [Hid Hlive].
    exfalso. apply (Hnone room); try assumption.
    apply map_values_in. now exists roomId.
  - intros room Hget Hhost. exists st. unfold delete_close. rewrite Hget.
    apply String.eqb_neq in Hhost. rewrite Hhost. cbn [negb].
    split; [reflexivity|]. split; [reflexivity|]. split; [reflexivity|].
    intros caller Horg. apply listed_spec.
    apply map_get_in in Hget.
    destruct (registry_ok_entry st roomId room Hok Hget) as [_ Hlive].
    split; [apply map_values_in; now exists roomId|]. split; [now symmetry|exact Hlive].
  - intros room Hget Hhost. unfold delete_close at 1. rewrite Hget.
    apply String.eqb_eq in Hhost. rewrite Hhost. cbn [negb].
    eexists. split; [reflexivity|]. cbn [activeRooms].
    split; [apply map_get_delete_eq|]. split; [intros k r; apply map_in_delete|].
    split.
    + intros caller r Hin. apply listed_spec in Hin as (Hin & _ & _).
      cbn [activeRooms] in Hin. apply map_values_in in Hin as (k & Hin).
      apply map_in_delete in Hin as [Hin Hk].
      destruct (registry_ok_entry st k r Hok Hin) as [Hid _]. congruence.
    + intros caller. unfold delete_close. cbn [activeRooms].
      now rewrite map_get_delete_eq.
Qed.

(** C4.  A caller whose plan is "free" or missing gets 403
    premium_required whatever the room id is; an entitled caller who
    names a room while the application id or the secret is not set gets
    200 with the placeholder token and demo = true. *)
Theorem token_entitlement_and_demo (e : env) (st : server) (user : User.t)
    (roomId : value) (w : world) :
  (premium_required user = true ->
   post_token e st user roomId w =
   (mk_response 403
      (BError "premium_required" (Some "Live Rooms require a Pro subscription.")), w)) /\
  (premium_required user = false ->
   truthy roomId = true ->
   ZEGO_APP_ID e = None \/ ZEGO_SERVER_SECRET e = None ->
   post_token e st user roomId w =
   (mk_response 200
      (BToken (mk_token_reply "ZEGO_NOT_CONFIGURED" (User._id user) (User.name user)
                 roomId (Int 0) None (Some true))), w)).
Proof.
  split.
  - intros Hp. unfold post_token. now rewrite Hp.
  - intros Hp Hr Hcfg. unfold post_token. rewrite Hp, Hr. cbn [negb].
    destruct Hcfg as [Ha|Hs].
    + rewrite Ha. reflexivity.
    + rewrite Hs. cbn [env_value truthy negb]. now rewrite orb_true_r.
Qed.

End RegistryClaims.

Section CoordinatorClaims.

Import Rooms.

Variable toString36 : draw -> string.

Lemma post_create_room_inv (st : server) (user : User.t) (title type : value) (w : world)
    (room : Room.t) (st' : server) (w' : world) :
  post_create_room toString36 st user title type w = (mk_response 200 (BRoom room), st', w') ->
  premium_required user = false /\ truthy title = true /\
  activeRooms st' = Map.set (Room.id room) room (activeRooms st) /\
  Room.hostId room = User._id user /\
  Room.organization room = User.organization user /\
  Room.live room = true /\
  exists suffix, Room.id room = ("room_" ++ suffix)%string.
Proof.
  intros H.
  destruct (premium_required user) eqn:Hp.
  { unfold post_create_room in H. rewrite Hp in H. discriminate H. }
  destruct (truthy title) eqn:Ht.
  2:{ unfold post_create_room in H. rewrite Hp, Ht in H. discriminate H. }
  destruct (post_create_room_run toString36 st user title type w Hp Ht)
    as (room' & Heq & Hid & _ & _ & Hhost & _ & Horg & _ & Hlive).
  rewrite Heq in H. injection H as <- <- <-.
  repeat split; try assumption. eexists. exact Hid.
Qed.

(** C6.  On the configured path a token response carries a token minted
    by the issuer with a lifetime of 3600 seconds, so that its envelope
    starts with createdAt + 3600, and isHost is true exactly when the
    registry has a room under the given id whose host is the caller;
    after a creation the creator gets isHost = true and a caller with
    another id gets isHost = false. *)
Theorem token_lifetime_and_host :
  (forall (e : env) (st : server) (user : User.t) (roomId : value) (w : world),
     premium_required user = false ->
     truthy roomId = true ->
     truthy (VNum (parseInt10 (env_value (ZEGO_APP_ID e)))) = true ->
     truthy (env_value (ZEGO_SERVER_SECRET e)) = true ->
     post_token e st user roomId w =
     match Token.generateToken04 (VNum (parseInt10 (env_value (ZEGO_APP_ID e))))
             (VStr (User._id user)) (env_value (ZEGO_SERVER_SECRET e)) 3600 VUndefined w
     with
     | (Ok tok, w') =>
         (mk_response 200
            (BToken (mk_token_reply tok (User._id user) (User.name user) roomId
                       (parseInt10 (env_value (ZEGO_APP_ID e)))
                       (Some (match get_room roomId (activeRooms st) with
                              | Some r => String.eqb (Room.hostId r) (User._id user)
                              | None => false
                              end)) None)), w')
     | (Throw err, w') => (mk_response 500 (BThrown err), w')
     end) /\
  (forall (e : env) (st : server) (user : User.t) (roomId : value) (w : world)
          (t : token_reply) (w' : world),
     premium_required user = false ->
     truthy roomId = true ->
     truthy (VNum (parseInt10 (env_value (ZEGO_APP_ID e)))) = true ->
     truthy (env_value (ZEGO_SERVER_SECRET e)) = true ->
     post_token e st user roomId w = (mk_response 200 (BToken t), w') ->
     Token.generateToken04 (VNum (parseInt10 (env_value (ZEGO_APP_ID e))))
       (VStr (User._id user)) (env_value (ZEGO_SERVER_SECRET e)) 3600 VUndefined w
     = (Ok (token t), w') /\
     (exists (b64 : string) (env iv cipher : list byte),
        token t = ("04" ++ b64)%string /\
        Base64.decode b64 = Some env /\
        env = envelope (createTime_of w + 3600) iv cipher /\
        Buffer.readBigInt64BE env = (createTime_of w + 3600)%Z) /\
     exists b : bool,
       isHost t = Some b /\
       (b = true <->
        exists room, get_room roomId (activeRooms st) = Some room /\
                     Room.hostId room = User._id user)) /\
  (forall (e : env) (st : server) (creator other : User.t) (title type : value)
          (w0 : world) (room : Room.t) (st1 : server) (w1 w : world)
          (t : token_reply) (w' : world),
     post_create_room toString36 st creator title type w0
     = (mk_response 200 (BRoom room), st1, w1) ->
     truthy (VNum (parseInt10 (env_value (ZEGO_APP_ID e)))) = true ->
     truthy (env_value (ZEGO_SERVER_SECRET e)) = true ->
     (post_token e st1 creator (VStr (Room.id room)) w = (mk_response 200 (BToken t), w') ->
      isHost t = Some true) /\
     (User._id other <> User._id creator ->
      post_token e st1 other (VStr (Room.id room)) w = (mk_response 200 (BToken t), w') ->
      isHost t = Some false)).
Proof.
  assert (Hgen : forall (e : env) (st : server) (user : User.t) (roomId : value) (w : world)
                   (t : token_reply) (w' : world),
             premium_required user = false ->
             truthy roomId = true ->
             truthy (VNum (parseInt10 (env_value (ZEGO_APP_ID e)))) = true ->
             truthy (env_value (ZEGO_SERVER_SECRET e)) = true ->
             post_token e st user roomId w = (mk_response 200 (BToken t), w') ->
             Token.generateToken04 (VNum (parseInt10 (env_value (ZEGO_APP_ID e))))
               (VStr (User._id user)) (env_value (ZEGO_SERVER_SECRET e)) 3600 VUndefined w
             = (Ok (token t), w') /\
             isHost t = Some (match get_room roomId (activeRooms st) with
                              | Some r => String.eqb (Room.hostId r) (User._id user)
                              | None => false
                              end)).
  { intros e st user roomId w t w' Hp Hr Ha Hs H.
    unfold post_token in H. rewrite Hp, Hr, Ha, Hs in H. cbn [negb orb] in H.
    destruct (Token.generateToken04 _ _ _ 3600 VUndefined w) as [[tok|err] w2];
      [|discriminate H].
    injection H as <- <-. split; reflexivity. }
  split; [|split].
  - intros e st user roomId w Hp Hr Ha Hs.
    unfold post_token. rewrite Hp, Hr, Ha, Hs. cbn [negb orb].
    destruct (Token.generateToken04 _ _ _ 3600 VUndefined w) as [[tok|err] w2]; reflexivity.
  - intros e st user roomId w t w' Hp Hr Ha Hs H.
    destruct (Hgen e st user roomId w t w' Hp Hr Ha Hs H) as [Hcall Hhost].
    split; [exact Hcall|]. split.
    + destruct (generateToken04_Ok_inv _ _ _ _ _ _ _ _ Hcall)
        as (a & u & k & iv & _ & _ & _ & _ & _ & _ & _ & _ & _ & _ & _ & Hrange & _ & Htok).
      eexists _, _, _, _. split; [exact Htok|].
      split; [apply base64_decode_encode|]. split; [reflexivity|].
      unfold envelope. now apply readBigInt64BE_be_bytes.
    + eexists. split; [exact Hhost|].
      destruct (get_room roomId (activeRooms st)) as [r|].
      * rewrite String.eqb_eq. split.
        -- intros Heq. exists r. auto.
        -- intros (r' & Hr' & Heq). now injection Hr' as ->.
      * split; [discriminate|]. intros (r' & Hr' & _). discriminate Hr'.
  - intros e st creator other title type w0 room st1 w1 w t w' Hcreate Ha Hs.
    destruct (post_create_room_inv _ _ _ _ _ _ _ _ Hcreate)
      as (Hp & _ & Hrooms & Hhost & _ & _ & (suffix & Hid)).
    assert (Hroom : get_room (VStr (Room.id room)) (activeRooms st1) = Some room).
    { cbn [get_room]. rewrite Hrooms. apply map_get_set_eq. }
    assert (Htruthy : truthy (VStr (Room.id room)) = true) by now rewrite Hid.
    split.
    + intros H.
      destruct (premium_required creator) eqn:Hpc; [discriminate Hp|].
      destruct (Hgen e st1 creator _ w t w' Hpc Htruthy Ha Hs H) as [_ Hh].
      rewrite Hh, Hroom, Hhost. now rewrite String.eqb_refl.
    + intros Hne H.
      destruct (premium_required other) eqn:Hpo.
      { unfold post_token in H. rewrite Hpo in H. discriminate H. }
      destruct (Hgen e st1 other _ w t w' Hpo Htruthy Ha Hs H) as [_ Hh].
      rewrite Hh, Hroom, Hhost. f_equal. apply String.eqb_neq. congruence.
Qed.


(** C10.  The kind of a room is not checked: an entitled caller who
    gives a title gets a room stored with the kind as supplied, whatever
    string it is, and with "audio" when none was supplied. *)
Theorem create_room_kind_unchecked (st : server) (user : User.t) (title type : value)
    (w : world) :
  premium_required user = false ->
  truthy title = true ->
  exists (room : Room.t) (st' : server) (w' : world),
    post_create_room toString36 st user title type w
    = (mk_response 200 (BRoom room), st', w') /\
    Map.get (Room.id room) (activeRooms st') = Some room /\
    (forall s, type = VStr s -> Room.type room = VStr s) /\
    (type = VUndefined -> Room.type room = VStr "audio").
Proof.
  intros Hp Ht.
  destruct (post_create_room_run toString36 st user title type w Hp Ht)
    as (room & Heq & _ & _ & Htype & _).
  eexists room, _, _. split; [exact Heq|]. cbn [activeRooms].
  split; [apply map_get_set_eq|]. split.
  - intros s ->. exact Htype.
  - intros ->. exact Htype.
Qed.

End CoordinatorClaims.

(** ** The claims on the sample data *)

Section RoomWitnesses.

Import Rooms.

Lemma close_room_outcomes_witness :
  delete_close sample_server sample_guest "room_0_x"
  = (mk_response 404 (BError "Room not found" None), sample_server) /\
  (exists st',
     delete_close sample_server sample_guest "room_1700000000123_9" =
     (mk_response 403 (BError "Only the host can close the room" None), st') /\
     st' = sample_server /\
     Map.get "room_1700000000123_9" (activeRooms st') = Some sample_room /\
     forall caller,
       User.organization caller = Room.organization sample_room ->
       In sample_room (listed st' caller)) /\
  (exists st',
     delete_close sample_server sample_host "room_1700000000123_9"
     = (mk_response 200 (BMessage "Room closed"), st') /\
     Map.get "room_1700000000123_9" (activeRooms st') = None /\
     (forall k r, In (k, r) (activeRooms st') <->
                  In (k, r) (activeRooms sample_server) /\ k <> "room_1700000000123_9") /\
     (forall caller r, In r (listed st' caller) -> Room.id r <> "room_1700000000123_9") /\
     forall caller,
       delete_close st' caller "room_1700000000123_9" =
       (mk_response 404 (BError "Room not found" None), st')).
Proof.
  split; [|split].
  - apply (proj1 (close_room_outcomes sample_server sample_guest "room_0_x" eq_refl)).
    intros room [<-|[]] _. vm_compute. discriminate.
  - apply (proj1 (proj2 (close_room_outcomes sample_server sample_guest
                           "room_1700000000123_9" eq_refl)) sample_room).
    + reflexivity.
    + vm_compute. discriminate.
  - apply (proj2 (proj2 (close_room_outcomes sample_server sample_host
                           "room_1700000000123_9" eq_refl)) sample_room).
    + reflexivity.
    + reflexivity.
Defined.

Lemma token_entitlement_and_demo_witness :
  post_token sample_env sample_server sample_free (VStr "room_1700000000123_9") sample_world
  = (mk_response 403
       (BError "premium_required" (Some "Live Rooms require a Pro subscription.")),
     sample_world) /\
  post_token (mk_env (Some "123456") None) sample_server sample_host
    (VStr "room_1700000000123_9") sample_world
  = (mk_response 200
       (BToken (mk_token_reply "ZEGO_NOT_CONFIGURED" (User._id sample_host)
                  (User.name sample_host) (VStr "room_1700000000123_9") (Int 0) None
                  (Some true))), sample_world).
Proof.
  split.
  - apply (proj1 (token_entitlement_and_demo sample_env sample_server sample_free
                    (VStr "room_1700000000123_9") sample_world)).
    reflexivity.
  - apply (proj2 (token_entitlement_and_demo (mk_env (Some "123456") None) sample_server
                    sample_host (VStr "room_1700000000123_9") sample_world)).
    + reflexivity.
    + reflexivity.
    + right. reflexivity.
Defined.

Lemma sample_creation :
  post_create_room sample_toString36 (mk_server Map.empty []) sample_host
    (VStr "Sprint Retro") (VStr "audio") sample_world
  = (mk_response 200 (BRoom sample_room), sample_server,
     skip_clock (skip_draws 1 (skip_clock sample_world))).
Proof. vm_compute. reflexivity. Defined.

Lemma sample_reply_host :
  post_token sample_env sample_server sample_host (VStr (Room.id sample_room)) sample_world
  = (mk_response 200 (BToken (sample_reply sample_host)), after_issue sample_world).
Proof. vm_compute. reflexivity. Defined.

Lemma sample_reply_guest :
  post_token sample_env sample_server sample_guest (VStr (Room.id sample_room)) sample_world
  = (mk_response 200 (BToken (sample_reply sample_guest)), after_issue sample_world).
Proof. vm_compute. reflexivity. Defined.

Lemma token_lifetime_and_host_witness :
  (exists (b64 : string) (env iv cipher : list byte),
     token (sample_reply sample_host) = ("04" ++ b64)%string /\
     Base64.decode b64 = Some env /\
     env = envelope (createTime_of sample_world + 3600) iv cipher /\
     Buffer.readBigInt64BE env = (createTime_of sample_world + 3600)%Z) /\
  isHost (sample_reply sample_host) = Some true /\
  isHost (sample_reply sample_guest) = Some false.
Proof.
  split; [|split].
  - apply (proj1 (proj2 (token_lifetime_and_host sample_toString36)) sample_env sample_server
             sample_host (VStr (Room.id sample_room)) sample_world
             (sample_reply sample_host) (after_issue sample_world)).
    + reflexivity.
    + reflexivity.
    + reflexivity.
    + reflexivity.
    + exact sample_reply_host.
  - apply (proj1 (proj2 (proj2 (token_lifetime_and_host sample_toString36)) sample_env
                    (mk_server Map.empty []) sample_host sample_guest (VStr "Sprint Retro")
                    (VStr "audio") sample_world sample_room sample_server
                    (skip_clock (skip_draws 1 (skip_clock sample_world))) sample_world
                    (sample_reply sample_host) (after_issue sample_world)
                    sample_creation eq_refl eq_refl)).
    exact sample_reply_host.
  - apply (proj2 (proj2 (proj2 (token_lifetime_and_host sample_toString36)) sample_env
                    (mk_server Map.empty []) sample_host sample_guest (VStr "Sprint Retro")
                    (VStr "audio") sample_world sample_room sample_server
                    (skip_clock (skip_draws 1 (skip_clock sample_world))) sample_world
                    (sample_reply sample_guest) (after_issue sample_world)
                    sample_creation eq_refl eq_refl)).
    + vm_compute. discriminate.
    + exact sample_reply_guest.
Defined.


Lemma create_room_kind_unchecked_witness :
  exists (room : Room.t) (st' : server) (w' : world),
    post_create_room sample_toString36 sample_server sample_guest (VStr "Standup")
      (VStr "karaoke") sample_world
    = (mk_response 200 (BRoom room), st', w') /\
    Map.get (Room.id room) (activeRooms st') = Some room /\
    (forall s, VStr "karaoke" = VStr s -> Room.type room = VStr s) /\
    (VStr "karaoke" = VUndefined -> Room.type room = VStr "audio").
Proof.
  apply (create_room_kind_unchecked sample_toString36 sample_server sample_guest
           (VStr "Standup") (VStr "karaoke") sample_world).
  - reflexivity.
  - reflexivity.
Defined.

End RoomWitnesses.

(** * Further properties of the code *)

(** ** The issuer and its helpers *)

Section IssuerExtras.

Local Open Scope list_scope.



(** X2.  A payload that is falsy (null, false, 0, NaN, the empty string)
    gives the same outcome as no payload at all. *)
Theorem falsy_payload_as_omitted (appId userId secret : value) (lifetime : Z)
    (payload : value) (w : world) :
  truthy payload = false ->
  Token.generateToken04 appId userId secret lifetime payload w =
  Token.generateToken04 appId userId secret lifetime VUndefined w.
Proof.
  intros H.
  assert (Hp : (if truthy (default_payload payload) then default_payload payload
                else VStr EmptyString) = VStr EmptyString).
  { destruct payload as [| |[|]|[|z]|[|c s]]; try discriminate H; try reflexivity.
    cbn [default_payload]. now rewrite H. }
  unfold Token.generateToken04, Token.tokenInfo.
  change (match payload with VUndefined => VStr EmptyString | _ => payload end)
    with (default_payload payload).
  rewrite Hp. reflexivity.
Qed.

Lemma falsy_payload_as_omitted_witness :
  Token.generateToken04 (VNum (Int 123456)) (VStr sample_userId) (VStr sample_secret)
    3600 VNull sample_world =
  Token.generateToken04 (VNum (Int 123456)) (VStr sample_userId) (VStr sample_secret)
    3600 VUndefined sample_world.
Proof.
  apply (falsy_payload_as_omitted (VNum (Int 123456)) (VStr sample_userId)
           (VStr sample_secret) 3600 VNull sample_world).
  reflexivity.
Defined.

(** What a token that [pack] returns was made of. *)
Lemma pack_Ok_inv (expireTime : Z) (iv : string) (cipher : list byte) (tok : string) :
  Token.pack expireTime iv cipher = Ok tok ->
  (- 2 ^ 63 <= expireTime < 2 ^ 63)%Z /\
  (Z.of_nat (length (utf8 iv)) <= 65535)%Z /\
  (Z.of_nat (length cipher) <= 65535)%Z /\
  tok = ("04" ++ Base64.encode (envelope expireTime (utf8 iv) cipher))%string.
Proof.
  intros H.
  destruct (Z_le_dec (- 2 ^ 63) expireTime) as [Hlo|Hlo];
    [|rewrite pack_expire_out_of_range in H by lia; discriminate H].
  destruct (Z_lt_dec expireTime (2 ^ 63)) as [Hhi|Hhi];
    [|rewrite pack_expire_out_of_range in H by lia; discriminate H].
  destruct (Z_le_dec (Z.of_nat (length (utf8 iv))) 65535) as [Hiv|Hiv].
  - destruct (Z_le_dec (Z.of_nat (length cipher)) 65535) as [Hc|Hc].
    + rewrite pack_ok in H by lia. injection H as <-. repeat split; assumption.
    + rewrite pack_cipher_too_long in H by lia. discriminate H.
  - exfalso. unfold Token.pack in H. cbv zeta in H.
    rewrite writeBigInt64BE_ok in H by (rewrite ?length_alloc; lia).
    rewrite writeUInt16BE_range in H by lia. discriminate H.
Qed.

Lemma base64_encode_inj (a b : list byte) : Base64.encode a = Base64.encode b -> a = b.
Proof.
  intros H. pose proof (base64_decode_encode a) as Ha.
  rewrite H, base64_decode_encode in Ha. now injection Ha.
Qed.

Lemma envelope_inj (e e' : Z) (iv iv' c c' : list byte) :
  (- 2 ^ 63 <= e < 2 ^ 63)%Z -> (- 2 ^ 63 <= e' < 2 ^ 63)%Z ->
  (Z.of_nat (length iv) <= 65535)%Z -> (Z.of_nat (length iv') <= 65535)%Z ->
  (Z.of_nat (length c) <= 65535)%Z -> (Z.of_nat (length c') <= 65535)%Z ->
  envelope e iv c = envelope e' iv' c' -> e = e' /\ iv = iv' /\ c = c'.
Proof.
  intros He He' Hiv Hiv' Hc Hc' H. unfold envelope in H.
  assert (Hee : e = e').
  { apply (f_equal Buffer.readBigInt64BE) in H.
    now rewrite !readBigInt64BE_be_bytes in H by assumption. }
  subst e'. apply app_inv_head in H.
  assert (Hlen : length iv = length iv').
  { apply (f_equal Buffer.readUInt16BE) in H.
    rewrite !readUInt16BE_be_bytes in H by lia. lia. }
  rewrite Hlen in H. apply app_inv_head in H.
  apply app_inj_1 in H as [Hi H]; [|exact Hlen]. subst iv'.
  assert (Hlc : length c = length c').
  { apply (f_equal Buffer.readUInt16BE) in H.
    rewrite !readUInt16BE_be_bytes in H by lia. lia. }
  rewrite Hlc in H. apply app_inv_head in H. auto.
Qed.

(** X3.  A token determines what was packed into it: two packings that
    give the same token had the same expiry, the same vector bytes and
    the same cipher bytes. *)
Theorem pack_injective (e e' : Z) (iv iv' : string) (c c' : list byte) (tok : string) :
  Token.pack e iv c = Ok tok -> Token.pack e' iv' c' = Ok tok ->
  e = e' /\ utf8 iv = utf8 iv' /\ c = c'.
Proof.
  intros H H'.
  apply pack_Ok_inv in H as (He & Hiv & Hc & Htok).
  apply pack_Ok_inv in H' as (He' & Hiv' & Hc' & Htok').
  rewrite Htok in Htok'. apply (inj (String.append "04")) in Htok'.
  apply base64_encode_inj in Htok'.
  now apply envelope_inj in Htok'.
Qed.

Lemma pack_injective_witness :
  exists tok,
    Token.pack 1700003600 "0zziiiiiiiiiiiii" (unhex "00ff10") = Ok tok /\
    (1700003600%Z = 1700003600%Z /\
     utf8 "0zziiiiiiiiiiiii" = utf8 "0zziiiiiiiiiiiii" /\ unhex "00ff10" = unhex "00ff10").
Proof.
  eexists. split; [vm_compute; reflexivity|].
  apply (pack_injective 1700003600 1700003600 "0zziiiiiiiiiiiii" "0zziiiiiiiiiiiii"
           (unhex "00ff10") (unhex "00ff10") "04AAAAAGVT/xAAEDB6emlpaWlpaWlpaWlpaWkAAwD/EA==").
  - vm_compute. reflexivity.
  - vm_compute. reflexivity.
Defined.

End IssuerExtras.

Section TokenShape.

Lemma length_base64_encode (bs : list byte) :
  String.length (Base64.encode bs) = (4 * ((length bs + 2) / 3))%nat.
Proof.
  remember (length bs) as n eqn:Hn.
  revert bs Hn. induction n as [n IH] using lt_wf_ind. intros bs Hn.
  destruct bs as [|a [|b [|c rest]]]; subst n; try reflexivity.
  change (Base64.encode (a :: b :: c :: rest)) with
    (String (Base64.char_of (Base64.sextet1 (Byte.to_N a)))
      (String (Base64.char_of (Base64.sextet2 (Byte.to_N a) (Byte.to_N b)))
        (String (Base64.char_of (Base64.sextet3 (Byte.to_N b) (Byte.to_N c)))
          (String (Base64.char_of (Base64.sextet4 (Byte.to_N c))) (Base64.encode rest))))).
  cbn [String.length length].
  rewrite (IH (length rest)) by (cbn [length]; lia || reflexivity).
  replace (S (S (S (length rest))) + 2)%nat with ((length rest + 2) + 1 * 3)%nat by lia.
  rewrite Nat.div_add by lia. lia.
Qed.

Lemma string_get_value_of (i : nat) (c : ascii) :
  String.get i Base64.alphabet = Some c -> base64_char c = true.
Proof.
  intros H.
  assert (Hall : forallb
            (fun k => match String.get k Base64.alphabet with
                      | Some c => base64_char c
                      | None => true
                      end) (seq 0 64) = true) by (vm_compute; reflexivity).
  rewrite forallb_forall in Hall.
  destruct (Nat.lt_ge_cases i 64) as [Hlt|Hge].
  - specialize (Hall i). rewrite H in Hall. apply Hall. apply in_seq. lia.
  - assert (Hnone : forall (s : string) (k : nat),
              (String.length s <= k)%nat -> String.get k s = None).
    { induction s as [|c' s IHs]; intros k Hk; [now destruct k|].
      destruct k as [|k]; cbn in Hk; [lia|]. cbn. apply IHs. lia. }
    rewrite Hnone in H by (cbn; lia). discriminate H.
Qed.

Lemma base64_char_of (n : N) : base64_char (Base64.char_of n) = true.
Proof.
  unfold Base64.char_of.
  destruct (String.get (N.to_nat n) Base64.alphabet) as [c|] eqn:E.
  - now apply string_get_value_of in E.
  - reflexivity.
Qed.

Lemma base64_encode_chars (bs : list byte) :
  forallb base64_char (list_ascii_of_string (Base64.encode bs)) = true.
Proof.
  remember (length bs) as n eqn:Hn.
  revert bs Hn. induction n as [n IH] using lt_wf_ind. intros bs Hn.
  destruct bs as [|a [|b [|c rest]]]; subst n.
  - reflexivity.
  - cbn [Base64.encode list_ascii_of_string forallb]. now rewrite !base64_char_of.
  - cbn [Base64.encode list_ascii_of_string forallb]. now rewrite !base64_char_of.
  - change (Base64.encode (a :: b :: c :: rest)) with
      (String (Base64.char_of (Base64.sextet1 (Byte.to_N a)))
        (String (Base64.char_of (Base64.sextet2 (Byte.to_N a) (Byte.to_N b)))
          (String (Base64.char_of (Base64.sextet3 (Byte.to_N b) (Byte.to_N c)))
            (String (Base64.char_of (Base64.sextet4 (Byte.to_N c))) (Base64.encode rest))))).
    cbn [list_ascii_of_string forallb]. rewrite !base64_char_of.
    cbn [andb]. apply (IH (length rest)); [cbn [length]; lia|reflexivity].
Qed.

(** X4.  A token that comes back is made of the characters A-Z, a-z,
    0-9, +, / and = only, and its length is fixed by the byte length L
    of the serialized claims: 2 + 4 * ceil((28 + 16 * (L div 16 + 1)) / 3). *)
Theorem token_shape (appId userId secret : value) (lifetime : Z) (payload : value)
    (w : world) (tok : string) (w' : world) :
  Token.generateToken04 appId userId secret lifetime payload w = (Ok tok, w') ->
  forallb base64_char (list_ascii_of_string tok) = true /\
  String.length tok =
    (2 + 4 * ((28 + 16 * (length (utf8 (plainText_of appId userId lifetime payload w)) / 16
                          + 1) + 2) / 3))%nat.
Proof.
  intros Hrun.
  destruct (generateToken04_Ok_inv _ _ _ _ _ _ _ _ Hrun)
    as (a & u & k & iv & _ & _ & _ & _ & _ & _ & _ & _ & Hiv & Hlen & Hal & _ & _ & ->).
  assert (Hivb : length (utf8 iv) = 16%nat).
  { rewrite length_utf8_ascii_only by now apply lower_alnum_ascii_only. exact Hlen. }
  split.
  - change ("04" ++ ?x)%string with (String "0" (String "4" x)).
    cbn [list_ascii_of_string forallb]. rewrite base64_encode_chars. reflexivity.
  - change ("04" ++ ?x)%string with (String "0" (String "4" x)).
    cbn [String.length]. rewrite length_base64_encode. unfold envelope.
    rewrite !length_app, !length_be_bytes, Hivb, length_cbc_encrypt.
    repeat f_equal; lia.
Qed.

Lemma token_shape_witness :
  forallb base64_char (list_ascii_of_string sample_token) = true /\
  String.length sample_token =
    (2 + 4 * ((28 + 16 * (length (utf8 (plainText_of (VNum (Int 123456))
                                         (VStr sample_userId) 3600 VUndefined
                                         sample_world)) / 16 + 1) + 2) / 3))%nat.
Proof.
  apply (token_shape (VNum (Int 123456)) (VStr sample_userId) (VStr sample_secret) 3600
           VUndefined sample_world sample_token (after_issue sample_world)).
  vm_compute. reflexivity.
Defined.

End TokenShape.

Section DrawExtras.

Lemma mk_draw_fields (m k : Z) :
  ((0 <=? m) && (m <? 2 ^ 53) && (m <? 2 ^ k) && (k <=? 1074))%Z = true ->
  mant (mk_draw m k) = m /\ scale (mk_draw m k) = k.
Proof.
  intros H. unfold mk_draw.
  destruct (Bool.bool_dec _ true) as [H'|H']; [split; reflexivity|contradiction].
Qed.

Lemma pick_draw_for (c : ascii) :
  lower_alnum c = true -> Token.pick (draw_for c) = String c EmptyString.
Proof.
  intros Hc.
  assert (Hall : forallb
            (fun n => let a := ascii_of_nat n in
                      implb (lower_alnum a)
                            (String.eqb (Token.pick (draw_for a)) (String a EmptyString)))
            (seq 0 256) = true) by (vm_compute; reflexivity).
  rewrite forallb_forall in Hall.
  specialize (Hall (nat_of_ascii c)). cbv zeta in Hall.
  rewrite ascii_nat_embedding, Hc in Hall. cbn [implb] in Hall.
  apply String.eqb_eq. apply Hall. apply in_seq.
  pose proof (nat_ascii_bounded c). lia.
Qed.

Lemma length_list_ascii_of_string (s : string) :
  length (list_ascii_of_string s) = String.length s.
Proof. induction s as [|c s IH]; cbn; congruence. Qed.

(** A run of [random_chars] on draws that pick the characters of [l]
    yields [l]. *)
Lemma random_chars_replay (l : list ascii) (w : world) :
  (forall i, (i < length l)%nat ->
     Token.pick (rand_src w (rand_reads w + i)) = String (nth i l "0"%char) EmptyString) ->
  Token.random_chars (length l) w
  = (Ok (string_of_list_ascii l), skip_draws (length l) w).
Proof.
  revert w. induction l as [|c l IH]; intros w H.
  - destruct w. reflexivity.
  - cbn [length Token.random_chars]. unfold bind at 1. unfold Math_random.
    unfold bind. rewrite IH.
    + unfold ret. cbn [rand_src rand_reads time_src time_reads].
      pose proof (H 0%nat ltac:(cbn [length]; lia)) as H0.
      rewrite Nat.add_0_r in H0. cbn [nth] in H0. rewrite H0.
      cbn [string_of_list_ascii].
      change (String c EmptyString ++ ?x)%string with (String c x).
      unfold skip_draws. cbn [rand_src rand_reads time_src time_reads].
      do 2 f_equal. lia.
    + intros i Hi. cbn [rand_src rand_reads].
      replace (S (rand_reads w) + i)%nat with (rand_reads w + S i)%nat by lia.
      apply (H (S i)). cbn [length]. lia.
Qed.

(** X5.  Every string of sixteen characters of the alphabet 0-9a-z is a
    vector that [makeRandomIv] can return: on draws chosen for it the
    function returns exactly that string, after sixteen draws. *)
Theorem makeRandomIv_reaches_every_vector (s : string) :
  String.length s = 16%nat -> all_lower_alnum s = true ->
  Token.makeRandomIv (world_drawing s) = (Ok s, skip_draws 16 (world_drawing s)).
Proof.
  intros Hlen Hal. unfold Token.makeRandomIv.
  rewrite <- Hlen, <- length_list_ascii_of_string.
  rewrite random_chars_replay.
  - now rewrite string_of_list_ascii_of_string.
  - intros i Hi. unfold world_drawing. cbn [rand_src rand_reads Nat.add].
    apply pick_draw_for.
    unfold all_lower_alnum in Hal. rewrite forallb_forall in Hal.
    apply Hal. now apply nth_In.
Qed.

Lemma makeRandomIv_reaches_every_vector_witness :
  Token.makeRandomIv (world_drawing "0123456789abcxyz")
  = (Ok "0123456789abcxyz", skip_draws 16 (world_drawing "0123456789abcxyz")).
Proof.
  apply (makeRandomIv_reaches_every_vector "0123456789abcxyz"); reflexivity.
Defined.

(** Rounding to 53 bits lowers a number by at most one part in 2^53. *)
Lemma round53_lower (n : Z) :
  (0 <= n)%Z -> (n - n / 2 ^ 53 <= round53 n)%Z.
Proof.
  intros Hn. unfold round53.
  assert (Hd : (0 <= n / 2 ^ 53)%Z) by (apply Z.div_pos; lia).
  destruct (Z.leb_spec (Z.log2 n - 52) 0) as [Hs|Hs]; [lia|].
  set (s := (Z.log2 n - 52)%Z) in *.
  assert (Hpos : (0 < n)%Z).
  { destruct (Z.eq_dec n 0%Z) as [Hz|]; [|lia]. subst n. unfold s in Hs. cbn in Hs. lia. }
  destruct (Z.log2_spec n Hpos) as [Hlo _].
  assert (H2s : (2 ^ s = 2 * 2 ^ (s - 1))%Z).
  { rewrite <- Z.pow_succ_r by lia. f_equal. lia. }
  assert (Hh : (0 < 2 ^ (s - 1))%Z) by (apply Z.pow_pos_nonneg; lia).
  assert (Hhalf : (2 ^ (s - 1) <= n / 2 ^ 53)%Z).
  { apply Z.div_le_lower_bound; [lia|].
    rewrite <- Z.pow_add_r by lia. replace (53 + (s - 1))%Z with (Z.log2 n) by lia.
    exact Hlo. }
  pose proof (Z.div_mod n (2 ^ s)) as Hdm.
  pose proof (Z.mod_pos_bound n (2 ^ s)) as Hr.
  assert (Hq : (0 <= n / 2 ^ s)%Z) by (apply Z.div_pos; lia).
  destruct ((2 ^ (s - 1) <? n mod 2 ^ s)%Z || _) eqn:Hup.
  - nia.
  - apply orb_false_iff in Hup as [Hup _]. apply Z.ltb_ge in Hup. nia.
Qed.

(** X6.  Every integer from 0 to 2147483647 is a nonce that the issuer
    can draw: for each there is a result of [Math.random()] on which
    [Math.ceil((-2147483648 + 4294967295) * Math.random())] is it. *)
Theorem make_nonce_reaches_every_value (n : Z) :
  (0 <= n <= 2147483647)%Z -> Token.make_nonce (draw_for_nonce n) = n.
Proof.
  intros Hn. unfold draw_for_nonce.
  destruct (Z.eqb_spec n 0) as [->|Hn0]; [vm_compute; reflexivity|].
  assert (E52 : (2 ^ 52 = 4503599627370496)%Z) by reflexivity.
  assert (E53 : (2 ^ 53 = 9007199254740992)%Z) by reflexivity.
  set (m := ((2 * n - 1) * 2 ^ 52 / 2147483647)%Z).
  pose proof (Z.div_mod ((2 * n - 1) * 2 ^ 52) 2147483647 ltac:(lia)) as Hdm.
  pose proof (Z.mod_pos_bound ((2 * n - 1) * 2 ^ 52) 2147483647 ltac:(lia)) as Hr.
  fold m in Hdm.
  assert (Hm : (0 <= m < 2 ^ 53)%Z) by (rewrite E52 in *; rewrite E53; lia).
  destruct (mk_draw_fields m 53) as [Hmant Hscale].
  { rewrite E53 in *.
    destruct Hm as [Hm0 Hm1]. apply Z.leb_le in Hm0. apply Z.ltb_lt in Hm1.
    rewrite Hm0, Hm1. reflexivity. }
  unfold Token.make_nonce, times. rewrite Hmant, Hscale.
  change (-2147483648 + 4294967295)%Z with 2147483647%Z.
  assert (Hx : (0 <= 2147483647 * m)%Z) by lia.
  pose proof (round53_bounds _ Hx) as [_ Hhi].
  pose proof (round53_lower _ Hx) as Hlo.
  assert (Hdiv : (0 <= 2147483647 * m / 2 ^ 53 <= n)%Z).
  { split; [apply Z.div_pos; lia|].
    apply Z.lt_succ_r. apply Z.div_lt_upper_bound; [lia|]. rewrite E52, E53 in *. lia. }
  set (R := round53 (2147483647 * m)) in *.
  unfold Qceiling, Qopp, Qfloor. cbn [Qnum Qden].
  rewrite Z2Pos.id by lia.
  assert (Hq : (- R / 2 ^ 53 = - n)%Z).
  { symmetry. apply (Z.div_unique _ _ _ (n * 2 ^ 53 - R)); rewrite E52, E53 in *; lia. }
  rewrite Hq. lia.
Qed.

Lemma make_nonce_reaches_every_value_witness :
  Token.make_nonce (draw_for_nonce 2147483647) = 2147483647%Z.
Proof. apply (make_nonce_reaches_every_value 2147483647). lia. Defined.

End DrawExtras.

(** ** The registry beyond the claims *)

Section MapExtras.

Context {V : Type}.
Implicit Types (m : Map.t V) (k : string) (v : V).

Lemma map_set_fresh m k v : Map.get k m = None -> Map.set k v m = (m ++ [(k, v)])%list.
Proof.
  induction m as [|[k' v'] m IH]; intros H; [reflexivity|].
  cbn [Map.get] in H. cbn [Map.set app].
  destruct (String.eqb k k'); [discriminate H|]. now rewrite IH.
Qed.

Lemma map_delete_absent m k : Map.get k m = None -> Map.delete k m = m.
Proof.
  induction m as [|[k' v'] m IH]; intros H; [reflexivity|].
  cbn [Map.get] in H. cbn [Map.delete].
  destruct (String.eqb k k'); [discriminate H|]. now rewrite IH.
Qed.


Lemma map_in_set m k v k' v' :
  In (k', v') (Map.set k v m) -> (k' = k /\ v' = v) \/ In (k', v') m.
Proof.
  induction m as [|[k0 v0] m IH]; cbn [Map.set].
  - intros [H|[]]. injection H as <- <-. now left.
  - destruct (String.eqb k k0).
    + intros [H|H]; [injection H as <- <-; now left|right; now right].
    + intros [H|H]; [right; now left|].
      destruct (IH H) as [Heq|Hin]; [now left|right; now right].
Qed.

End MapExtras.

Section RegistryExtras.

Import Rooms.

Variable toString36 : draw -> string.

Lemma room_of_type (type : value) :
  (match type with VUndefined => VStr "audio" | _ => type end) <> VUndefined.
Proof. destruct type; discriminate. Qed.



Lemma values_delete_filter (m : Map.t Room.t) (k : string) :
  forallb entry_ok m = true ->
  Map.values (Map.delete k m)
  = List.filter (fun r => negb (String.eqb (Room.id r) k)) (Map.values m).
Proof.
  unfold Map.values.
  induction m as [|[k' r] m IH]; intros H; [reflexivity|].
  cbn [forallb] in H. apply andb_true_iff in H as [He Hall].
  unfold entry_ok in He. cbn [fst snd] in He. apply andb_true_iff in He as [Hid _].
  apply String.eqb_eq in Hid.
  cbn [Map.delete map snd List.filter]. rewrite Hid, (String.eqb_sym k' k).
  destruct (String.eqb k k'); cbn [negb map snd]; now rewrite IH.
Qed.


(** X8.  A room created under an id that the registry does not hold
    goes last: the registry and the timers each grow by one entry at the
    end, the timer running for four hours, and every listing is the
    earlier listing followed by the new room for the callers of the
    creator's organization, and the earlier listing for all others. *)
Theorem create_room_appends (st : server) (user : User.t) (title type : value) (w : world)
    (room : Room.t) (st' : server) (w' : world) :
  post_create_room toString36 st user title type w = (mk_response 200 (BRoom room), st', w') ->
  Map.get (Room.id room) (activeRooms st) = None ->
  activeRooms st' = (activeRooms st ++ [(Room.id room, room)])%list /\
  timers st' = (timers st ++ [(retention, Room.id room)])%list /\
  forall caller,
    listed st' caller =
    (listed st caller ++
     if String.eqb (User.organization user) (User.organization caller)
     then [room] else [])%list.
Proof.
  intros H Hfresh.
  destruct (premium_required user) eqn:Hp.
  { unfold post_create_room in H. rewrite Hp in H. discriminate H. }
  destruct (truthy title) eqn:Ht.
  2:{ unfold post_create_room in H. rewrite Hp, Ht in H. discriminate H. }
  destruct (post_create_room_run toString36 st user title type w Hp Ht)
    as (room' & Heq & _ & _ & _ & _ & _ & Horg & _ & Hlive).
  rewrite Heq in H. injection H as -> <- <-. cbn [activeRooms timers].
  rewrite (map_set_fresh _ _ _ Hfresh).
  split; [reflexivity|]. split; [reflexivity|].
  intros caller. unfold listed, get_list. cbn [json activeRooms].
  unfold Map.values. rewrite map_app, List.filter_app. f_equal.
  cbn [map snd List.filter]. rewrite Horg, Hlive, andb_true_r.
  now destruct (String.eqb _ _).
Qed.


(** X10.  In every state that the server can reach, each stored room is
    stored under its own id, which starts with room_, has a truthy title
    and a kind that is not undefined, counts no participant and is
    live. *)
Theorem reachable_room_shape (st : server) :
  reachable toString36 st ->
  forall k r, In (k, r) (activeRooms st) -> room_shape (k, r).
Proof.
  induction 1 as [|st user title type w _ IH|st user roomId _ IH|st i _ IH]; intros k r Hin.
  - destruct Hin.
  - destruct (premium_required user) eqn:Hp.
    { unfold post_create_room in Hin. rewrite Hp in Hin. now apply IH. }
    destruct (truthy title) eqn:Ht.
    2:{ unfold post_create_room in Hin. rewrite Hp, Ht in Hin. now apply IH. }
    destruct (post_create_room_run toString36 st user title type w Hp Ht)
      as (room & Heq & Hid & Htitle & Htype & _ & _ & _ & Hpart & Hlive).
    rewrite Heq in Hin. cbn [fst snd activeRooms] in Hin.
    apply map_in_set in Hin as [[-> ->]|Hin]; [|now apply IH].
    unfold room_shape. cbn [fst snd].
    split; [reflexivity|]. split; [eexists; exact Hid|].
    split; [now rewrite Htitle|]. split; [rewrite Htype; apply room_of_type|].
    split; assumption.
  - unfold delete_close in Hin.
    destruct (Map.get roomId (activeRooms st)) as [room|]; [|now apply IH].
    destruct (negb _); [now apply IH|].
    cbn [snd activeRooms] in Hin. apply map_in_delete in Hin as [Hin _]. now apply IH.
  - unfold timer_fires in Hin.
    destruct (nth_error (timers st) i) as [[d roomId]|]; [|now apply IH].
    cbn [activeRooms] in Hin. apply map_in_delete in Hin as [Hin _]. now apply IH.
Qed.


(** X12.  When a pending timer fires it leaves the list of timers, the
    room under its id is gone and all other entries stay; when that room
    had been closed before, the registry is not changed at all. *)
Theorem timer_fires_effect (st : server) (i : nat) (d : Z) (k : string) :
  nth_error (timers st) i = Some (d, k) ->
  Map.get k (activeRooms (timer_fires st i)) = None /\
  (forall k' r, In (k', r) (activeRooms (timer_fires st i)) <->
                In (k', r) (activeRooms st) /\ k' <> k) /\
  S (length (timers (timer_fires st i))) = length (timers st) /\
  (Map.get k (activeRooms st) = None -> activeRooms (timer_fires st i) = activeRooms st).
Proof.
  intros Hnth. unfold timer_fires. rewrite Hnth. cbn [activeRooms timers].
  split; [apply map_get_delete_eq|]. split; [intros k' r; apply map_in_delete|].
  split.
  - assert (Hlt : (i < length (timers st))%nat) by (apply nth_error_Some; congruence).
    rewrite length_app, length_firstn, length_skipn. lia.
  - apply map_delete_absent.
Qed.

(** X13.  After the host has closed a room, every caller's listing is
    the earlier listing without the rooms of that id, in the same
    order. *)
Theorem close_room_listing (st : server) (user : User.t) (roomId : string) (st' : server) :
  registry_ok st = true ->
  delete_close st user roomId = (mk_response 200 (BMessage "Room closed"), st') ->
  forall caller,
    listed st' caller
    = List.filter (fun r => negb (String.eqb (Room.id r) roomId)) (listed st caller).
Proof.
  intros Hok H caller. unfold delete_close in H.
  destruct (Map.get roomId (activeRooms st)) as [room|]; [|discriminate H].
  destruct (negb _); [discriminate H|]. injection H as <-.
  unfold registry_ok in Hok. apply andb_true_iff in Hok as [Hall _].
  unfold listed, get_list. cbn [json activeRooms].
  rewrite (values_delete_filter _ _ Hall).
  induction (Map.values (activeRooms st)) as [|r l IH]; [reflexivity|].
  cbn [List.filter].
  destruct (negb (String.eqb (Room.id r) roomId)) eqn:E1;
    destruct (String.eqb (Room.organization r) (User.organization caller) && Room.live r)
      eqn:E2; cbn [List.filter]; rewrite ?E1, ?E2, IH; reflexivity.
Qed.

End RegistryExtras.

Section RegistryExtrasWitnesses.

Import Rooms.


Lemma create_room_appends_witness :
  exists room st' w',
    post_create_room sample_toString36 (mk_server Map.empty []) sample_host
      (VStr "Sprint Retro") VUndefined sample_world = (mk_response 200 (BRoom room), st', w') /\
    activeRooms st' = [(Room.id room, room)] /\
    timers st' = [(retention, Room.id room)].
Proof.
  eexists _, _, _. split; [vm_compute; reflexivity|].
  destruct (create_room_appends sample_toString36 (mk_server Map.empty []) sample_host (VStr "Sprint Retro")
              VUndefined sample_world _ _ _ eq_refl eq_refl) as (Hrooms & Htimers & _).
  split; [exact Hrooms|exact Htimers].
Defined.


Lemma reachable_room_shape_witness :
  room_shape ("room_1700000000123_9", sample_room).
Proof.
  apply (reachable_room_shape sample_toString36 sample_server).
  - exact (reach_create sample_toString36 (mk_server Map.empty []) sample_host
             (VStr "Sprint Retro") VUndefined sample_world (reach_start sample_toString36)).
  - left. reflexivity.
Defined.


Lemma timer_fires_effect_witness :
  Map.get "room_1700000000123_9" (activeRooms (timer_fires sample_server 0)) = None /\
  S (length (timers (timer_fires sample_server 0))) = length (timers sample_server).
Proof.
  destruct (timer_fires_effect sample_server 0 (4 * 60 * 60 * 1000) "room_1700000000123_9"
              eq_refl) as (Hget & _ & Hlen & _).
  split; [exact Hget|exact Hlen].
Defined.

Lemma close_room_listing_witness :
  listed (snd (delete_close sample_server sample_host "room_1700000000123_9")) sample_guest
  = List.filter (fun r => negb (String.eqb (Room.id r) "room_1700000000123_9"))
                (listed sample_server sample_guest).
Proof.
  apply (close_room_listing sample_server sample_host "room_1700000000123_9");
    reflexivity.
Defined.

End RegistryExtrasWitnesses.

(** ** The token route beyond the claims *)

Section TokenRouteExtras.

Import Rooms.

(** X14.  With the application id set, a secret that is set but is not
    of 32 characters makes the token route answer 500 with the issuer's
    message, the clock and the draws untouched; a secret of 32
    characters that takes more than 32 bytes makes it answer 500 with
    the cipher's message, after the clock was read and seventeen draws
    were made. *)
Theorem token_route_secret_errors (e : env) (st : server) (user : User.t) (roomId : value)
    (w : world) (k : string) :
  premium_required user = false ->
  truthy roomId = true ->
  truthy (VNum (parseInt10 (env_value (ZEGO_APP_ID e)))) = true ->
  User._id user <> EmptyString ->
  ZEGO_SERVER_SECRET e = Some k ->
  k <> EmptyString ->
  (String.length k <> 32%nat ->
   post_token e st user roomId w
   = (mk_response 500 (BThrown (Error "serverSecret must be 32 chars")), w)) /\
  (String.length k = 32%nat -> length (utf8 k) <> 32%nat ->
   post_token e st user roomId w
   = (mk_response 500 (BThrown (RangeError "Invalid key length")), after_issue w)).
Proof.
  intros Hp Hr Ha Hu Hs Hk.
  assert (Hts : truthy (env_value (ZEGO_SERVER_SECRET e)) = true).
  { rewrite Hs. destruct k; [congruence|reflexivity]. }
  assert (Hva : valid_appId (VNum (parseInt10 (env_value (ZEGO_APP_ID e)))) = true).
  { destruct (parseInt10 _) as [|z]; [discriminate Ha|exact Ha]. }
  assert (Hvu : valid_userId (VStr (User._id user)) = true).
  { destruct (User._id user); [congruence|reflexivity]. }
  split.
  - intros Hlen. unfold post_token. rewrite Hp, Hr, Ha, Hts. cbn [negb orb].
    rewrite generateToken04_guarded.
    + rewrite Hva, Hvu. reflexivity.
    + rewrite Hva, Hvu, Hs. cbn [env_value valid_secret andb].
      now apply Nat.eqb_neq.
  - intros Hlen Hbytes. unfold post_token. rewrite Hp, Hr, Ha, Hts. cbn [negb orb].
    rewrite Hs. cbn [env_value].
    destruct (generateToken04_outcome (VNum (parseInt10 (env_value (ZEGO_APP_ID e))))
                (VStr (User._id user)) k 3600 VUndefined w) as (iv & _ & _ & _ & _ & Heq).
    { rewrite Hva, Hvu. cbn [valid_secret andb]. now apply Nat.eqb_eq. }
    rewrite Heq. apply Nat.eqb_neq in Hbytes. rewrite Hbytes. reflexivity.
Qed.

Lemma token_route_secret_errors_witness :
  post_token (mk_env (Some "123456") (Some "short")) sample_server sample_host
    (VStr "room_1700000000123_9") sample_world
  = (mk_response 500 (BThrown (Error "serverSecret must be 32 chars")), sample_world) /\
  post_token (mk_env (Some "123456") (Some long_byte_secret)) sample_server sample_host
    (VStr "room_1700000000123_9") sample_world
  = (mk_response 500 (BThrown (RangeError "Invalid key length")), after_issue sample_world).
Proof.
  split.
  - apply (proj1 (token_route_secret_errors (mk_env (Some "123456") (Some "short"))
                    sample_server sample_host (VStr "room_1700000000123_9") sample_world
                    "short" eq_refl eq_refl eq_refl ltac:(discriminate) eq_refl
                    ltac:(discriminate))).
    vm_compute. discriminate.
  - apply (proj2 (token_route_secret_errors (mk_env (Some "123456") (Some long_byte_secret))
                    sample_server sample_host (VStr "room_1700000000123_9") sample_world
                    long_byte_secret eq_refl eq_refl eq_refl ltac:(discriminate) eq_refl
                    ltac:(discriminate))).
    + reflexivity.
    + vm_compute. discriminate.
Defined.

(** X15.  An entitled caller who names a room gets the placeholder
    answer exactly when the application id does not parse to a number
    other than 0 or the secret is unset or empty: in each of these cases
    the answer is 200 with the token ZEGO_NOT_CONFIGURED, appId 0 and
    demo = true and neither the clock nor a draw is used, and in no
    other case does an answer carry the demo field. *)
Theorem token_demo_exactly (e : env) (st : server) (user : User.t) (roomId : value)
    (w : world) :
  premium_required user = false ->
  truthy roomId = true ->
  (truthy (VNum (parseInt10 (env_value (ZEGO_APP_ID e)))) = false \/
   ZEGO_SERVER_SECRET e = None \/ ZEGO_SERVER_SECRET e = Some EmptyString ->
   post_token e st user roomId w =
   (mk_response 200
      (BToken (mk_token_reply "ZEGO_NOT_CONFIGURED" (User._id user) (User.name user)
                 roomId (Int 0) None (Some true))), w)) /\
  ((exists t, json (fst (post_token e st user roomId w)) = BToken t /\ demo t <> None) ->
   truthy (VNum (parseInt10 (env_value (ZEGO_APP_ID e)))) = false \/
   ZEGO_SERVER_SECRET e = None \/ ZEGO_SERVER_SECRET e = Some EmptyString).
Proof.
  intros Hp Hr. split.
  - intros Hcfg. unfold post_token. rewrite Hp, Hr. cbn [negb].
    destruct Hcfg as [Ha|[Hs|Hs]].
    + rewrite Ha. reflexivity.
    + rewrite Hs. cbn [env_value truthy negb]. now rewrite orb_true_r.
    + rewrite Hs. cbn [env_value truthy negb]. now rewrite orb_true_r.
  - intros (t & Hjson & Hdemo).
    destruct (truthy (VNum (parseInt10 (env_value (ZEGO_APP_ID e))))) eqn:Ha; [|now left].
    right.
    destruct (ZEGO_SERVER_SECRET e) as [[|c k]|] eqn:Hs; [now right|exfalso|now left].
    unfold post_token in Hjson. rewrite Hp, Hr, Ha, Hs in Hjson.
    cbn [env_value truthy negb orb] in Hjson.
    destruct (Token.generateToken04 _ _ _ 3600 VUndefined w) as [[tok|err] w2];
      cbn [fst json] in Hjson; [|discriminate Hjson].
    injection Hjson as <-. now apply Hdemo.
Qed.

Lemma token_demo_exactly_witness :
  post_token (mk_env (Some "abc") (Some sample_secret)) sample_server sample_host
    (VStr "room_1700000000123_9") sample_world =
  (mk_response 200
     (BToken (mk_token_reply "ZEGO_NOT_CONFIGURED" (User._id sample_host)
                (User.name sample_host) (VStr "room_1700000000123_9") (Int 0) None
                (Some true))), sample_world).
Proof.
  apply (proj1 (token_demo_exactly (mk_env (Some "abc") (Some sample_secret)) sample_server
                  sample_host (VStr "room_1700000000123_9") sample_world eq_refl eq_refl)).
  left. reflexivity.
Defined.

End TokenRouteExtras.

(** ** The middleware and the guarded routes *)

Section AuthExtras.

Import Rooms.

Variable decoded_id : value -> option string -> result value.
Variable findById : value -> result (option User.t).
Variable toString36 : draw -> string.
Variable JWT_SECRET : option string.

Lemma split_space_cons (s : string) : exists h r, Auth.split_space s = h :: r.
Proof.
  induction s as [|c s (h & r & IH)]; cbn [Auth.split_space]; [now eexists _, _|].
  destruct (Ascii.eqb c " "); [now eexists _, _|]. rewrite IH. now eexists _, _.
Qed.

Lemma split_space_no_space (a : string) :
  no_space a = true -> Auth.split_space a = [a].
Proof.
  unfold no_space. induction a as [|c a IH]; [reflexivity|].
  cbn [list_ascii_of_string forallb Auth.split_space]. intros H.
  apply andb_true_iff in H as [Hc Ha]. apply negb_true_iff in Hc.
  rewrite Hc, (IH Ha). reflexivity.
Qed.

Lemma split_space_field (a t : string) :
  no_space a = true ->
  Auth.split_space (a ++ String " " t) = a :: Auth.split_space t.
Proof.
  unfold no_space. induction a as [|c a IH]; intros H.
  - reflexivity.
  - cbn [list_ascii_of_string forallb] in H.
    apply andb_true_iff in H as [Hc Ha]. apply negb_true_iff in Hc.
    change (String c a ++ String " " t)%string with (String c (a ++ String " " t)%string).
    cbn [Auth.split_space]. rewrite Hc, (IH Ha). reflexivity.
Qed.

Lemma second_field_of (scheme tok : string) :
  no_space scheme = true -> no_space tok = true ->
  Auth.second_field (scheme ++ String " " tok) = VStr tok /\
  forall rest, Auth.second_field (scheme ++ String " " (tok ++ String " " rest)) = VStr tok.
Proof.
  intros Hs Ht. unfold Auth.second_field. split.
  - now rewrite split_space_field, split_space_no_space.
  - intros rest. now rewrite !split_space_field.
Qed.

Lemma header_truthy (a t : string) : exists c s, (a ++ String " " t)%string = String c s.
Proof. destruct a as [|c a]; now eexists _, _. Qed.

(** X16.  The middleware reads the second of the fields that single
    spaces separate in the header and nothing else of it: the first
    word, whatever scheme it names and even when it is empty, and what
    follows a second space do not change the outcome; a header without
    a space hands [undefined] to the verifier. *)
Theorem auth_reads_second_field (scheme1 scheme2 tok rest : string) :
  no_space scheme1 = true -> no_space scheme2 = true -> no_space tok = true ->
  Auth.authMiddleware decoded_id findById JWT_SECRET
    (Some (scheme1 ++ String " " (tok ++ String " " rest)))
  = Auth.authMiddleware decoded_id findById JWT_SECRET (Some (scheme2 ++ String " " tok)) /\
  (scheme1 <> EmptyString ->
   Auth.second_field scheme1 = VUndefined /\
   Auth.authMiddleware decoded_id findById JWT_SECRET (Some scheme1)
   = match decoded_id VUndefined JWT_SECRET with
     | Throw _ => Auth.Rejected "Invalid token"
     | Ok id =>
         match findById id with
         | Throw _ => Auth.Rejected "Invalid token"
         | Ok None => Auth.Rejected "User not found"
         | Ok (Some user) => Auth.Next user
         end
     end).
Proof.
  intros H1 H2 Ht.
  destruct (second_field_of scheme1 tok H1 Ht) as [_ Ha].
  destruct (second_field_of scheme2 tok H2 Ht) as [Hb _].
  split.
  - destruct (header_truthy scheme1 (tok ++ String " " rest)) as (c1 & s1 & E1).
    destruct (header_truthy scheme2 tok) as (c2 & s2 & E2).
    specialize (Ha rest). rewrite E1 in *. rewrite E2 in *.
    unfold Auth.authMiddleware. now rewrite Ha, Hb.
  - intros Hne.
    assert (Hu : Auth.second_field scheme1 = VUndefined).
    { unfold Auth.second_field. now rewrite split_space_no_space. }
    split; [exact Hu|].
    destruct scheme1 as [|c s]; [congruence|].
    unfold Auth.authMiddleware. now rewrite Hu.
Qed.

(** X17.  The registry changes only for a caller whom the middleware
    let through: the token route and the listing never change it, a
    creation changes it only for an entitled user with a title, and a
    closing only for the host of a stored room. *)
Theorem registry_changes_need_auth (e : env) (st : server) (authorization : option string)
    (roomId title type : value) (closed : string) (w : world) :
  snd (fst (Routes.route_token decoded_id findById JWT_SECRET e st authorization roomId w))
  = st /\
  snd (fst (Routes.route_list decoded_id findById JWT_SECRET st authorization w)) = st /\
  (snd (fst (Routes.route_create_room decoded_id findById toString36 JWT_SECRET st
               authorization title type w)) <> st ->
   exists user,
     Auth.authMiddleware decoded_id findById JWT_SECRET authorization = Auth.Next user /\
     premium_required user = false /\ truthy title = true) /\
  (snd (fst (Routes.route_close decoded_id findById JWT_SECRET st authorization closed w))
   <> st ->
   exists user room,
     Auth.authMiddleware decoded_id findById JWT_SECRET authorization = Auth.Next user /\
     Map.get closed (activeRooms st) = Some room /\
     Room.hostId room = User._id user).
Proof.
  unfold Routes.route_token, Routes.route_list, Routes.route_create_room, Routes.route_close.
  destruct (Auth.authMiddleware decoded_id findById JWT_SECRET authorization) as [text|user].
  { cbn [fst snd]. repeat split; intros H; now contradiction H. }
  split; [now destruct (post_token e st user roomId w)|]. split; [reflexivity|]. split.
  - intros H. exists user. split; [reflexivity|].
    destruct (premium_required user) eqn:Hp.
    { unfold post_create_room in H. rewrite Hp in H. now contradiction H. }
    destruct (truthy title) eqn:Ht.
    2:{ unfold post_create_room in H. rewrite Hp, Ht in H. now contradiction H. }
    now split.
  - intros H. unfold delete_close in H.
    destruct (Map.get closed (activeRooms st)) as [room|]; [|now contradiction H].
    destruct (String.eqb_spec (Room.hostId room) (User._id user)) as [Hh|Hh];
      cbn [negb fst snd] in H; [|now contradiction H].
    now exists user, room.
Qed.

End AuthExtras.

Section AuthExtrasWitnesses.

Import Rooms.

Lemma auth_reads_second_field_witness :
  Auth.authMiddleware sample_decoded_id sample_findById (Some "s3cret")
    (Some "Bearer t0k trailing")
  = Auth.authMiddleware sample_decoded_id sample_findById (Some "s3cret") (Some " t0k").
Proof.
  apply (proj1 (auth_reads_second_field sample_decoded_id sample_findById (Some "s3cret")
                  "Bearer" EmptyString "t0k" "trailing" eq_refl eq_refl eq_refl)).
Defined.

Lemma registry_changes_need_auth_witness :
  exists user room,
    Auth.authMiddleware sample_decoded_id sample_findById (Some "s3cret") (Some "Bearer t0k")
    = Auth.Next user /\
    Map.get "room_1700000000123_9" (activeRooms sample_server) = Some room /\
    Room.hostId room = User._id user.
Proof.
  apply (proj2 (proj2 (proj2
           (registry_changes_need_auth sample_decoded_id sample_findById sample_toString36
              (Some "s3cret") sample_env sample_server (Some "Bearer t0k")
              (VStr "room_1700000000123_9") (VStr "Standup") VUndefined
              "room_1700000000123_9" sample_world)))).
  vm_compute. discriminate.
Defined.

End AuthExtrasWitnesses.

(** ** What the issuer reads of the world *)

Section IssuerFrame.

Lemma random_chars_frame (n : nat) (w1 w2 : world) :
  (forall i, (i < n)%nat ->
     rand_src w1 (rand_reads w1 + i) = rand_src w2 (rand_reads w2 + i)) ->
  fst (Token.random_chars n w1) = fst (Token.random_chars n w2).
Proof.
  revert w1 w2. induction n as [|n IH]; intros w1 w2 H; [reflexivity|].
  cbn [Token.random_chars]. unfold bind at 1 3. unfold Math_random.
  set (w1' := World (time_src w1) (time_reads w1) (rand_src w1) (S (rand_reads w1))).
  set (w2' := World (time_src w2) (time_reads w2) (rand_src w2) (S (rand_reads w2))).
  assert (Hrest : fst (Token.random_chars n w1') = fst (Token.random_chars n w2')).
  { apply IH. intros i Hi. unfold w1', w2'. cbn [rand_src rand_reads].
    replace (S (rand_reads w1) + i)%nat with (rand_reads w1 + S i)%nat by lia.
    replace (S (rand_reads w2) + i)%nat with (rand_reads w2 + S i)%nat by lia.
    apply H. lia. }
  destruct (random_chars_run n w1') as (s1 & Hrun1 & _).
  destruct (random_chars_run n w2') as (s2 & Hrun2 & _).
  rewrite Hrun1, Hrun2 in Hrest. cbn [fst] in Hrest. injection Hrest as ->.
  unfold bind. rewrite Hrun1, Hrun2. unfold ret. cbn [fst].
  pose proof (H 0%nat ltac:(lia)) as H0. rewrite !Nat.add_0_r in H0. now rewrite H0.
Qed.

(** X18.  Of the world the issuer uses one reading of the clock and
    seventeen draws and nothing else: on two worlds that agree on these
    it returns the same token or throws the same error. *)
Theorem issuer_reads_clock_and_17_draws (appId userId secret : value) (lifetime : Z)
    (payload : value) (w1 w2 : world) :
  time_src w1 (time_reads w1) = time_src w2 (time_reads w2) ->
  (forall i, (i < 17)%nat ->
     rand_src w1 (rand_reads w1 + i) = rand_src w2 (rand_reads w2 + i)) ->
  fst (Token.generateToken04 appId userId secret lifetime payload w1)
  = fst (Token.generateToken04 appId userId secret lifetime payload w2).
Proof.
  intros Htime Hdraws.
  destruct (valid_appId appId && valid_userId userId && valid_secret secret) eqn:Hv.
  2:{ now rewrite !generateToken04_guarded by assumption. }
  destruct (generateToken04_run appId userId secret lifetime payload w1 Hv)
    as (iv1 & Hrun1 & _ & _ & _ & Heq1).
  destruct (generateToken04_run appId userId secret lifetime payload w2 Hv)
    as (iv2 & Hrun2 & _ & _ & _ & Heq2).
  assert (Hiv : iv1 = iv2).
  { assert (Hf : fst (Token.makeRandomIv (skip_draws 1 (skip_clock w1)))
                 = fst (Token.makeRandomIv (skip_draws 1 (skip_clock w2)))).
    { apply random_chars_frame. intros i Hi.
      unfold skip_draws, skip_clock. cbn [rand_src rand_reads].
      replace (1 + rand_reads w1 + i)%nat with (rand_reads w1 + S i)%nat by lia.
      replace (1 + rand_reads w2 + i)%nat with (rand_reads w2 + S i)%nat by lia.
      apply Hdraws. lia. }
    rewrite Hrun1, Hrun2 in Hf. now injection Hf. }
  assert (Hnonce : nonce_of w1 = nonce_of w2).
  { unfold nonce_of. pose proof (Hdraws 0%nat ltac:(lia)) as H0.
    rewrite !Nat.add_0_r in H0. now rewrite H0. }
  assert (Hct : createTime_of w1 = createTime_of w2).
  { unfold createTime_of. now rewrite Htime. }
  assert (Hpt : plainText_of appId userId lifetime payload w1
                = plainText_of appId userId lifetime payload w2).
  { unfold plainText_of. now rewrite Hnonce, Hct. }
  rewrite Heq1, Heq2. cbn [fst]. now rewrite Hiv, Hpt, Hct.
Qed.

Lemma issuer_reads_clock_and_17_draws_witness :
  fst (Token.generateToken04 (VNum (Int 123456)) (VStr sample_userId) (VStr sample_secret)
         3600 VUndefined sample_world)
  = fst (Token.generateToken04 (VNum (Int 123456)) (VStr sample_userId) (VStr sample_secret)
           3600 VUndefined
           (World (time_src sample_world) 5 (rand_src sample_world) 0)).
Proof.
  apply (issuer_reads_clock_and_17_draws (VNum (Int 123456)) (VStr sample_userId)
           (VStr sample_secret) 3600 VUndefined sample_world
           (World (time_src sample_world) 5 (rand_src sample_world) 0)).
  - reflexivity.
  - intros i Hi. reflexivity.
Defined.

End IssuerFrame.
